(** * recipe-units: unit matching and density-bridged conversion

    A shallow embedding of [units.py]: the [Unit], [UnitSet],
    [UnitsHandler], [Ingredient] and [IngredientsHandler] classes, with the
    fragment of Python's [re] module that the unit and ingredient matchers
    rely on, followed by the properties of the specification.

    Numbers are exact rationals ([Q]); a decimal literal of the source is
    read as the rational it denotes.  Strings are sequences of 8-bit code
    points.  Exceptions are values of the type [exn]. *)

From Stdlib Require Import Bool Arith List String Ascii QArith.
From Stdlib Require Import Floats.
Import ListNotations.

Set Implicit Arguments.

Local Open Scope string_scope.

(** ** Python outcomes *)

Module Py.

(** The exceptions the module can raise: [ValueError] with its message,
    [ZeroDivisionError] from [/], [AttributeError] from a method call on
    [None]. *)
Inductive exn : Type :=
| ValueError (msg : string)
| ZeroDivisionError
| AttributeError.

Inductive result (A : Type) : Type :=
| Return (a : A)
| Raise (e : exn).

Arguments Return {A} a.
Arguments Raise {A} e.

Definition bind {A B : Type} (r : result A) (k : A -> result B) : result B :=
  match r with
  | Return a => k a
  | Raise e => Raise e
  end.

(** [a / b] on numbers. *)
Definition truediv (a b : Q) : result Q :=
  if Qeq_bool b 0 then Raise ZeroDivisionError else Return (a / b)%Q.

(** [x is None] and [x is not None]. *)
Definition is_None {A : Type} (x : option A) : bool :=
  match x with None => true | Some _ => false end.

Definition is_not_None {A : Type} (x : option A) : bool := negb (is_None x).

End Py.

Import Py.

Notation "x <- r ;; k" := (bind r (fun x => k))
  (at level 61, r at next level, right associativity).

(** ** The fragment of [re] used by the matchers *)

Module Re.

(** Parsed patterns.  [Dot] is [.], [Lit c] a character standing for
    itself, [Opt r] is [r?], [Eos] is [$]. *)
Inductive regex : Type :=
| Eps
| Lit (c : ascii)
| Dot
| Seq (r1 r2 : regex)
| Alt (r1 r2 : regex)
| Opt (r : regex)
| Eos.

Definition newline : ascii := "010"%char.
Definition backspace : ascii := "008"%char.

(** Simple lower-casing of a Latin-1 code point. *)
Definition lower (c : ascii) : ascii :=
  let n := nat_of_ascii c in
  if ((65 <=? n) && (n <=? 90))%nat
     || ((192 <=? n) && (n <=? 222) && negb (n =? 215))%nat
  then ascii_of_nat (n + 32) else c.

(** Comparison of a pattern character with a subject character, under
    [re.IGNORECASE] when [ignorecase] is set. *)
Definition char_eq (ignorecase : bool) (p c : ascii) : bool :=
  if ignorecase then Ascii.eqb (lower p) (lower c) else Ascii.eqb p c.

(** [$] without [re.MULTILINE]: at the end of the string, or just before
    a newline that ends the string. *)
Definition at_end (s : string) : bool :=
  match s with
  | EmptyString => true
  | String c EmptyString => Ascii.eqb c newline
  | _ => false
  end.

(** Backtracking matcher in continuation style: [run ic r s k] holds when
    [r] matches a prefix of [s] and [k] accepts the rest. *)
Fixpoint run (ic : bool) (r : regex) (s : string) (k : string -> bool) : bool :=
  match r with
  | Eps => k s
  | Lit p =>
      match s with
      | String c s' => char_eq ic p c && k s'
      | EmptyString => false
      end
  | Dot =>
      match s with
      | String c s' => negb (Ascii.eqb c newline) && k s'
      | EmptyString => false
      end
  | Seq r1 r2 => run ic r1 s (fun s' => run ic r2 s' k)
  | Alt r1 r2 => run ic r1 s k || run ic r2 s k
  | Opt r1 => run ic r1 s k || k s
  | Eos => at_end s && k s
  end.

(** The pattern denoted by a name of the tables: [.] is the wildcard and
    every other character stands for itself.  No name of the source
    holds another metacharacter (see [plain]). *)
Fixpoint parse (n : string) : regex :=
  match n with
  | EmptyString => Eps
  | String c n' =>
      Seq (if Ascii.eqb c "."%char then Dot else Lit c) (parse n')
  end.

Definition metachar (c : ascii) : bool :=
  existsb (Ascii.eqb c)
    (list_ascii_of_string "\^$*+?{}[]()|").

Fixpoint plain (n : string) : bool :=
  match n with
  | EmptyString => true
  | String c n' => negb (metachar c) && plain n'
  end.

(** [re.match(pattern, string) is not None]: a match anchored at the
    start of the string. *)
Definition matches (ic : bool) (r : regex) (s : string) : bool :=
  run ic r s (fun _ => true).

(** [re.search(pattern, string) is not None]: a match starting at some
    position of the string. *)
Fixpoint search (ic : bool) (r : regex) (s : string) : bool :=
  matches ic r s ||
  match s with
  | EmptyString => false
  | String _ s' => search ic r s'
  end.

End Re.


(** ** class Unit *)

Record Unit : Type := {
  Unit_name : string;
  SI_ratio : Q;
  SI_offset : Q;
  SI_unit : string;
  Unit_allnames : list string;   (* a set: only membership is observed *)
  case_sensitive : bool
}.

(** ** class UnitSet *)

Record UnitSet : Type := {
  UnitSet_name : string;
  UnitSet_SI_unit : string;
  units : list Unit
}.

Record UnitsHandler : Type := {
  volume : UnitSet;
  mass : UnitSet;
  temperature : UnitSet
}.

Definition _SI_units : list string :=
  ["meter"; "kilogram"; "second"; "liter"; "kelvin"; "unknown"].

(** [name.replace(' ','_')] *)
Fixpoint replace_space (s : string) : string :=
  match s with
  | EmptyString => EmptyString
  | String c s' =>
      String (if Ascii.eqb c " "%char then "_"%char else c) (replace_space s')
  end.

(** The tail every unit pattern ends with.  The source writes it in an
    ordinary string literal, ['s?\.?($|\b)']: there [\.] stays a backslash
    followed by a dot (an escaped dot for [re]), and [\b] is the backspace
    character, which [re] then matches as itself. *)
Definition unit_suffix : Re.regex :=
  Re.Seq (Re.Opt (Re.Lit "s"%char))
    (Re.Seq (Re.Opt (Re.Lit "."%char))
       (Re.Alt Re.Eos (Re.Lit Re.backspace))).

(** [n+'s?\.?($|\b)'] *)
Definition unit_pattern (n : string) : Re.regex :=
  Re.Seq (Re.parse n) unit_suffix.

(** [Unit.match(self, string, case_sensitive=None)] *)
Definition Unit_match (self : Unit) (string : string)
    (case_sensitive_arg : option bool) : bool :=
  let cs :=
    match case_sensitive_arg with
    | None => case_sensitive self
    | Some b => b
    end in
  if cs
  then existsb (fun n => Re.matches false (unit_pattern n) string)
         (Unit_allnames self)
  else existsb (fun n => Re.matches true (unit_pattern n) string)
         (Unit_allnames self).

(** [Unit.expand_allnames]; nothing in the module calls it. *)
Definition expand_allnames (self : Unit) : Unit :=
  {| Unit_name := Unit_name self;
     SI_ratio := SI_ratio self;
     SI_offset := SI_offset self;
     SI_unit := SI_unit self;
     Unit_allnames :=
       Unit_allnames self ++
       flat_map (fun p => [p ++ "."; p ++ "s"; p ++ "s."])
         (Unit_allnames self);
     case_sensitive := case_sensitive self |}.

(** [Unit.convert_to_SI] *)
Definition convert_to_SI (self : Unit) (magnitude : Q) : Q :=
  (magnitude * SI_ratio self + SI_offset self)%Q.

(** [Unit.convert_from_SI] *)
Definition convert_from_SI (self : Unit) (magnitude : Q) : result Q :=
  truediv (magnitude - SI_offset self)%Q (SI_ratio self).

(** [UnitSet.__init__] *)
Definition UnitSet_init (name SI_unit : string) : UnitSet :=
  {| UnitSet_name := name; UnitSet_SI_unit := SI_unit; units := [] |}.

(** [self.units.append(u)] *)
Definition units_append (self : UnitSet) (u : Unit) : UnitSet :=
  {| UnitSet_name := UnitSet_name self;
     UnitSet_SI_unit := UnitSet_SI_unit self;
     units := units self ++ [u] |}.

(** [UnitSet.match_unit]: the first unit, in insertion order, that
    matches. *)
Definition match_unit (self : UnitSet) (string : string) : option Unit :=
  find (fun u => Unit_match u string None) (units self).

(** [UnitSet.convert(self, magnitude, unit_name, to_unit=None)] *)
Definition UnitSet_convert (self : UnitSet) (magnitude : Q)
    (unit_name : string) (to_unit : option string) : result (Q * string) :=
  match match_unit self unit_name with
  | None => Raise (ValueError "can't match the present unit given")
  | Some u =>
      let newmag := convert_to_SI u magnitude in
      match to_unit with
      | None => Return (newmag, UnitSet_SI_unit self)
      | Some to_unit =>
          match match_unit self to_unit with
          | Some to_u =>
              x <- convert_from_SI to_u newmag ;;
              Return (x, to_unit)
          | None => Raise (ValueError "can't match the present unit given")
          end
      end
  end.

(** ** Construction of the units *)

Section Registry.

(** The unit registry of the [pint] package, which is not part of the
    repository: [ureg_ratio n si] stands for
    [ureg.parse_expression(n).to(si).magnitude].  It is taken as total: an
    error of the registry's own, for a name it does not know, is left
    out. *)
Variable ureg_ratio : string -> string -> Q.

(** [Unit.__init__(self, name, SI_unit, allnames=None, SI_ratio=None,
    SI_offset=0., case_sensitive=False)] *)
Definition Unit_init (name SI_unit : string) (allnames : option (list string))
    (SI_ratio_arg : option Q) (SI_offset_arg : Q) (case_sensitive_arg : bool)
    : result Unit :=
  let ratio :=
    match SI_ratio_arg with
    | None => ureg_ratio (replace_space name) SI_unit
    | Some r => r
    end in
  if existsb (String.eqb SI_unit) _SI_units
  then Return {| Unit_name := name;
                 SI_ratio := ratio;
                 SI_offset := SI_offset_arg;
                 SI_unit := SI_unit;
                 Unit_allnames :=
                   match allnames with
                   | None => [name]
                   | Some l => l
                   end;
                 case_sensitive := case_sensitive_arg |}
  else Raise (ValueError "SI_name given is not valid").

(** [set.units.append(Unit(...))] *)
Definition append_new (set : UnitSet) (u : result Unit) : result UnitSet :=
  u' <- u ;; Return (units_append set u').

(** [UnitsHandler.__init__] *)
Definition UnitsHandler_init : result UnitsHandler :=
  (* units of volume *)
  let volume := UnitSet_init "volume" "liter" in
  volume <- append_new volume (Unit_init "liter" "liter" (Some ["liter"; "litre"; "l"; "litr"; "ltr"]) None 0 false) ;;
  volume <- append_new volume (Unit_init "deciliter" "liter" (Some ["deciliter"; "decilitre"; "dl"]) None 0 false) ;;
  volume <- append_new volume (Unit_init "milliliter" "liter" (Some ["milliliter"; "millilitre"; "ml"; "cc"]) None 0 false) ;;
  volume <- append_new volume (Unit_init "drop" "liter" (Some ["drop"; "d"; "dr"; "gt"; "gtt"]) (Some 0.050e-3%Q) 0 false) ;;
  volume <- append_new volume (Unit_init "smidgen" "liter" (Some ["smidgen"; "smidge"; "smidg"; "smdgn"; "smdg"; "smi"]) (Some 0.116e-3%Q) 0 false) ;;
  volume <- append_new volume (Unit_init "pinch" "liter" (Some ["pinch"]) (Some 0.231e-3%Q) 0 false) ;;
  volume <- append_new volume (Unit_init "dash" "liter" (Some ["dash"; "dsh"]) (Some 0.462e-3%Q) 0 false) ;;
  volume <- append_new volume (Unit_init "saltspoon" "liter" (Some ["saltspoon"; "scruple"; "ssp"]) (Some 0.924e-3%Q) 0 false) ;;
  volume <- append_new volume (Unit_init "coffeespoon" "liter" (Some ["coffeespoon"; "csp"; "cfespn"]) (Some 0.924e-3%Q) 0 false) ;;
  volume <- append_new volume (Unit_init "fluid dram" "liter" (Some ["fluid dram"; "fl.dr"; "fl. dr"; "fldr"; "fl dr"]) (Some 0.924e-3%Q) 0 false) ;;
  volume <- append_new volume (Unit_init "teaspoon" "liter" (Some ["teaspoon"; "Teaspoon"; "t"; "tsp"; "ts"]) None 0 true) ;;
  volume <- append_new volume (Unit_init "dessertspoon" "liter" (Some ["dessertspoon"; "dsp"; "dstspn"; "dssp"; "dsspn"; "dspn"]) (Some 0.01%Q) 0 false) ;;
  volume <- append_new volume (Unit_init "tablespoon" "liter" (Some ["tablespoon"; "Tablespoon"; "tbl"; "tblspn"; "tbspn"; "tb"; "tbs"; "tbsp"; "T"; "TB"; "Tbsp"; "Tblsp"; "Tbl"; "Tbs"; "TBsp"; "TBl"]) None 0 true) ;;
  volume <- append_new volume (Unit_init "fluid ounce" "liter" (Some ["fluid ounce"; "ounce"; "fl oz"; "floz"; "fl. oz"; "oz"]) None 0 false) ;;
  volume <- append_new volume (Unit_init "wineglass" "liter" (Some ["wineglass"; "wine glass"; "wgf"; "wg"; "winegl"; "wngl"]) (Some 59.15e-3%Q) 0 false) ;;
  volume <- append_new volume (Unit_init "teacup" "liter" (Some ["teacup"; "gill"; "tcf"; "tc"; "teac"]) (Some 0.1189%Q) 0 false) ;;
  volume <- append_new volume (Unit_init "cup" "liter" (Some ["cup"; "c"; "cu"]) None 0 false) ;;
  volume <- append_new volume (Unit_init "pint" "liter" (Some ["pint"; "pnt"; "p"; "pt"; "flpt"; "fl pt"; "fl. pt"; "fl.pt"]) None 0 false) ;;
  volume <- append_new volume (Unit_init "quart" "liter" (Some ["quart"; "quarts"; "q"; "qt"; "fl qt"; "fl. qt"; "fl.qt"]) None 0 false) ;;
  volume <- append_new volume (Unit_init "pottle" "liter" (Some ["pottle"; "ptl"]) (Some 1.892%Q) 0 false) ;;
  volume <- append_new volume (Unit_init "gallon" "liter" (Some ["gallon"; "g"; "ga"; "gal"; "gall"]) None 0 false) ;;
  (* misc units, bound to local names only *)
  package <- Unit_init "package" "liter" (Some ["package"]) (Some (-1)%Q) (-1) false ;;
  bag <- Unit_init "bag" "liter" (Some ["bag"]) (Some (-1)%Q) (-1) false ;;
  can <- Unit_init "can" "liter" (Some ["can"; "cn"]) (Some (-1)%Q) (-1) false ;;
  (* units of mass *)
  let mass := UnitSet_init "mass" "kilogram" in
  mass <- append_new mass (Unit_init "kilogram" "kilogram" (Some ["kilogram"; "kg"; "kgr"; "kigr"]) None 0 false) ;;
  mass <- append_new mass (Unit_init "gram" "kilogram" (Some ["gram"; "g"; "gr"]) None 0 false) ;;
  mass <- append_new mass (Unit_init "pound" "kilogram" (Some ["pound"; "lb"; "lbs"]) None 0 false) ;;
  (* units of temperature *)
  let temperature := UnitSet_init "temperature" "kelvin" in
  temperature <- append_new temperature (Unit_init "fahrenheit" "kelvin" (Some ["F"; "degF"; "deg F"]) (Some (5 / 9)%Q) 255.372 false) ;;
  temperature <- append_new temperature (Unit_init "celsius" "kelvin" (Some ["C"; "degC"; "deg C"]) (Some 1%Q) 273.15 false) ;;
  temperature <- append_new temperature (Unit_init "kelvin" "kelvin" (Some ["C"; "degC"; "deg C"]) (Some 1%Q) 1 false) ;;
  Return {| volume := volume; mass := mass; temperature := temperature |}.

(** The construction succeeds; [units_handler] is the handler it
    returns. *)
Definition UnitsHandler_init_value :
  { uh : UnitsHandler | UnitsHandler_init = Return uh }.
Proof. eexists. cbv. reflexivity. Defined.

Definition units_handler : UnitsHandler :=
  Eval cbv in proj1_sig UnitsHandler_init_value.

End Registry.

(** ** class Ingredient *)

Record Ingredient : Type := {
  Ingredient_name : string;
  Ingredient_allnames : list string;   (* a set: only membership is observed *)
  density : option Q;                  (* SI base units, kg/L *)
  Ingredient_uh : option UnitsHandler
}.

(** [Ingredient.__init__(self, name, allnames=None, density=None,
    units_handler=None)] *)
Definition Ingredient_init (name : string) (allnames : option (list string))
    (density_arg : option Q) (units_handler_arg : option UnitsHandler)
    : Ingredient :=
  {| Ingredient_name := name;
     Ingredient_allnames :=
       match allnames with
       | None => [name]
       | Some l => l
       end;
     density := density_arg;
     Ingredient_uh := units_handler_arg |}.

(** [Ingredient.match_string] *)
Definition match_string (self : Ingredient) (string : string) : bool :=
  existsb (fun n => Re.search false (Re.parse n) string)
    (Ingredient_allnames self).

(** A method call [x.f(...)] on a value that may be [None]. *)
Definition call {A B : Type} (x : option A) (f : A -> result B) : result B :=
  match x with
  | Some a => f a
  | None => Raise AttributeError
  end.

(** [if to_unit is None: to_unit = 'liter'] *)
Definition or_liter (to_unit : option string) : string :=
  match to_unit with
  | None => "liter"
  | Some t => t
  end.

(** [Ingredient.convert(self, magnitude, from_unit, to_unit=None)] *)
Definition Ingredient_convert (self : Ingredient) (magnitude : Q)
    (from_unit : string) (to_unit : option string) : result (Q * string) :=
  let to_unit := or_liter to_unit in
  uh <- call (Ingredient_uh self) Return ;;
  let v1 := match_unit (volume uh) from_unit in
  let m1 := match_unit (mass uh) from_unit in
  let v2 := match_unit (volume uh) to_unit in
  let m2 := match_unit (mass uh) to_unit in
  if is_None v1 && is_None m1
  then Raise (ValueError "couldn't find the from_unit")
  else if is_None v2 && is_None m2
  then Raise (ValueError "couldn't find the to_unit")
  else if is_not_None v1 && is_not_None m1
  then Raise (ValueError "ambiguity in from_unit")
  else if is_not_None v2 && is_not_None m2
  then Raise (ValueError "ambiguity in to_unit")
  else if is_None v1
  then
    newmag <- call m1 (fun u => Return (convert_to_SI u magnitude)) ;;
    if is_None v2
    then
      x <- call m2 (fun u => convert_from_SI u newmag) ;;
      Return (x, to_unit)
    else
      match density self with
      | None => Raise (ValueError "density not specified, cannot convert")
      | Some d =>
          y <- truediv newmag d ;;
          x <- call v2 (fun u => convert_from_SI u y) ;;
          Return (x, to_unit)
      end
  else
    newmag <- call v1 (fun u => Return (convert_to_SI u magnitude)) ;;
    if is_None v2
    then
      match density self with
      | None => Raise (ValueError "density not specified, cannot convert")
      | Some d =>
          x <- call m2 (fun u => convert_from_SI u (newmag * d)%Q) ;;
          Return (x, to_unit)
      end
    else
      x <- call v2 (fun u => convert_from_SI u newmag) ;;
      Return (x, to_unit).

(** ** class IngredientsHandler *)

Record IngredientsHandler : Type := {
  IngredientsHandler_uh : option UnitsHandler;
  ingredients : list Ingredient
}.

(** [IngredientsHandler.add_ingredient(self, name, density=None)] *)
Definition add_ingredient (self : IngredientsHandler) (name : string)
    (density_arg : option Q) : IngredientsHandler :=
  {| IngredientsHandler_uh := IngredientsHandler_uh self;
     ingredients :=
       ingredients self ++
       [Ingredient_init name None density_arg (IngredientsHandler_uh self)] |}.

(** [IngredientsHandler.__init__] *)
Definition IngredientsHandler_init (units_handler_arg : option UnitsHandler)
    : IngredientsHandler :=
  let self := {| IngredientsHandler_uh := units_handler_arg;
                 ingredients := [] |} in
  let self := add_ingredient self "flour" (Some 0.55%Q) in
  let self := add_ingredient self "salt" (Some 1.2%Q) in
  let self := add_ingredient self "sugar" (Some 0.8%Q) in
  let self := add_ingredient self "water" (Some 1%Q) in
  let self := add_ingredient self "butter" (Some 0.9%Q) in
  let self := add_ingredient self "vanilla" None in
  self.

(** [IngredientsHandler.match_name]: the first ingredient that matches, or
    [None] when the loop ends without one. *)
Definition match_name (self : IngredientsHandler) (name : string)
    : option Ingredient :=
  find (fun i => match_string i name) (ingredients self).

(** [IngredientsHandler.convert] *)
Definition IngredientsHandler_convert (self : IngredientsHandler)
    (name : string) (magnitude : Q) (from_unit : string)
    (to_unit : option string) : result (Q * string) :=
  match match_name self name with
  | None => Raise (ValueError "can't match ingredient name")
  | Some i => Ingredient_convert i magnitude from_unit to_unit
  end.

(** ** A registry instance *)

(** The values [pint] gives for the names the tables leave to it (US
    customary volumes from the gallon of 231 cubic inches, the
    avoirdupois pound).  It only serves to run the general statements on
    concrete inputs. *)
Definition pint_ratio (n si : string) : Q :=
  let gallon := 3.785411784%Q in
  if String.eqb n "liter" then 1
  else if String.eqb n "deciliter" then 0.1
  else if String.eqb n "milliliter" then 0.001
  else if String.eqb n "teaspoon" then gallon / 768
  else if String.eqb n "tablespoon" then gallon / 256
  else if String.eqb n "fluid_ounce" then gallon / 128
  else if String.eqb n "cup" then gallon / 16
  else if String.eqb n "pint" then gallon / 8
  else if String.eqb n "quart" then gallon / 4
  else if String.eqb n "gallon" then gallon
  else if String.eqb n "kilogram" then 1
  else if String.eqb n "gram" then 0.001
  else if String.eqb n "pound" then 0.45359237
  else 1.

(** ** Binary64 arithmetic *)

(** The two conversions of [Unit] on IEEE 754 binary64 numbers, the
    [float] of the source, for a ratio that is not zero, and the relative
    tolerance test of the specification. *)
Module Binary64.

Local Open Scope float_scope.

Definition convert_to_SI (ratio offset magnitude : float) : float :=
  magnitude * ratio + offset.

Definition convert_from_SI (ratio offset magnitude : float) : float :=
  (magnitude - offset) / ratio.

(** [abs(x - m) <= rel * abs(m)] *)
Definition within (rel x m : float) : bool :=
  PrimFloat.leb (abs (x - m)) (rel * abs m).

End Binary64.

(** ** The error kinds of the specification *)

(** The source raises [ValueError] throughout; the kinds of the
    specification are told apart by the message. *)
Definition UnmatchedUnitError (e : exn) : Prop :=
  e = ValueError "couldn't find the from_unit" \/
  e = ValueError "couldn't find the to_unit".

Definition AmbiguousUnitError (e : exn) : Prop :=
  e = ValueError "ambiguity in from_unit" \/
  e = ValueError "ambiguity in to_unit".

Definition MissingDensityError : exn :=
  ValueError "density not specified, cannot convert".

Definition UnmatchedIngredientError : exn :=
  ValueError "can't match ingredient name".

(** ** How a unit string is classified *)

(** Some unit of the set matches the string. *)
Definition in_set (set : UnitSet) (s : string) : bool :=
  existsb (fun u => Unit_match u s None) (units set).

(** The string matches a unit of the volume set and a unit of the mass
    set. *)
Definition ambiguous (uh : UnitsHandler) (s : string) : bool :=
  in_set (volume uh) s && in_set (mass uh) s.

(** The string matches no unit of either set. *)
Definition unmatched (uh : UnitsHandler) (s : string) : bool :=
  negb (in_set (volume uh) s) && negb (in_set (mass uh) s).

(** The string resolves to [u] in the volume set and to nothing in the
    mass set, and the other way round. *)
Definition only_volume (uh : UnitsHandler) (s : string) (u : Unit) : Prop :=
  match_unit (volume uh) s = Some u /\ match_unit (mass uh) s = None.

Definition only_mass (uh : UnitsHandler) (s : string) (u : Unit) : Prop :=
  match_unit (mass uh) s = Some u /\ match_unit (volume uh) s = None.

(** ** Names as literal patterns *)

(** A name without [.] is matched as the string it is. *)
Fixpoint dot_free (n : string) : bool :=
  match n with
  | EmptyString => true
  | String c n' => negb (Ascii.eqb c "."%char) && dot_free n'
  end.

(** [n] occurs somewhere in [s]. *)
Definition occurs_in (n s : string) : Prop :=
  exists before after, s = before ++ n ++ after.

(** ** Texts up to case, and what may follow a unit name *)

(** [a] and [b] have the same length and agree character by character,
    up to case when [ic] is set. *)
Fixpoint same_text (ic : bool) (a b : string) : bool :=
  match a, b with
  | EmptyString, EmptyString => true
  | String x a', String y b' => Re.char_eq ic x y && same_text ic a' b'
  | _, _ => false
  end.



(** Handlers obtained from [ih0] by calls of [add_ingredient]. *)
Inductive grown (ih0 : IngredientsHandler) : IngredientsHandler -> Prop :=
| grown_same : grown ih0 ih0
| grown_add (ih : IngredientsHandler) (name : string) (d : option Q) :
    grown ih0 ih -> grown ih0 (add_ingredient ih name d).

(** ** Basic facts *)

Example match_plural_dot :
  Re.matches true (unit_pattern "cup") "Cups." = true.
Proof. reflexivity. Qed.

Example match_final_newline :
  Re.matches false (unit_pattern "cup") (String "c" (String "u" (String "p"
    (String Re.newline "")))) = true.
Proof. reflexivity. Qed.

Example match_wildcard :
  Re.matches true (unit_pattern "fl.dr") "fl-dr" = true.
Proof. reflexivity. Qed.

Example match_not_a_prefix_search :
  Re.matches true (unit_pattern "cup") "cupboard" = false.
Proof. reflexivity. Qed.

Example search_anywhere :
  Re.search false (Re.parse "salt") "sea salt" = true.
Proof. reflexivity. Qed.

Example search_keeps_case :
  Re.search false (Re.parse "salt") "Salt" = false.
Proof. reflexivity. Qed.

Lemma truediv_nonzero (a b : Q) :
  ~ (b == 0)%Q -> truediv a b = Return (a / b)%Q.
Proof.
  intros Hb. unfold truediv.
  destruct (Qeq_bool b 0) eqn:E; [|reflexivity].
  apply Qeq_bool_eq in E. contradiction.
Qed.

Lemma truediv_zero (a b : Q) :
  (b == 0)%Q -> truediv a b = Raise ZeroDivisionError.
Proof.
  intros Hb. unfold truediv.
  apply Qeq_bool_iff in Hb. rewrite Hb. reflexivity.
Qed.

Lemma convert_from_SI_nonzero (u : Unit) (x : Q) :
  ~ (SI_ratio u == 0)%Q ->
  convert_from_SI u x = Return ((x - SI_offset u) / SI_ratio u)%Q.
Proof. intros H. unfold convert_from_SI. now apply truediv_nonzero. Qed.

Lemma is_not_None_match_unit (set : UnitSet) (s : string) :
  is_not_None (match_unit set s) = in_set set s.
Proof.
  unfold match_unit, in_set.
  induction (units set) as [|u l IH]; simpl; [reflexivity|].
  destruct (Unit_match u s None); [reflexivity|exact IH].
Qed.

Lemma is_None_match_unit (set : UnitSet) (s : string) :
  is_None (match_unit set s) = negb (in_set set s).
Proof.
  rewrite <- is_not_None_match_unit. unfold is_not_None.
  now rewrite negb_involutive.
Qed.

Lemma match_unit_Some_in (set : UnitSet) (s : string) (u : Unit) :
  match_unit set s = Some u -> In u (units set) /\ Unit_match u s None = true.
Proof. unfold match_unit. apply find_some. Qed.

(** ** Ingredient.convert, case by case *)

(** What [Ingredient.convert] does once its four guards are passed, by the
    outcome of the two volume lookups. *)
Lemma Ingredient_convert_guarded (i : Ingredient) (uh : UnitsHandler)
    (m : Q) (from_unit : string) (to_unit : option string) :
  Ingredient_uh i = Some uh ->
  unmatched uh from_unit = false ->
  unmatched uh (or_liter to_unit) = false ->
  ambiguous uh from_unit = false ->
  ambiguous uh (or_liter to_unit) = false ->
  Ingredient_convert i m from_unit to_unit =
  let t := or_liter to_unit in
  let v1 := match_unit (volume uh) from_unit in
  let m1 := match_unit (mass uh) from_unit in
  let v2 := match_unit (volume uh) t in
  let m2 := match_unit (mass uh) t in
  if is_None v1
  then
    newmag <- call m1 (fun u => Return (convert_to_SI u m)) ;;
    if is_None v2
    then x <- call m2 (fun u => convert_from_SI u newmag) ;; Return (x, t)
    else
      match density i with
      | None => Raise MissingDensityError
      | Some d =>
          y <- truediv newmag d ;;
          x <- call v2 (fun u => convert_from_SI u y) ;;
          Return (x, t)
      end
  else
    newmag <- call v1 (fun u => Return (convert_to_SI u m)) ;;
    if is_None v2
    then
      match density i with
      | None => Raise MissingDensityError
      | Some d =>
          x <- call m2 (fun u => convert_from_SI u (newmag * d)%Q) ;;
          Return (x, t)
      end
    else x <- call v2 (fun u => convert_from_SI u newmag) ;; Return (x, t).
Proof.
  intros Huh Uf Ut Af At.
  unfold unmatched, ambiguous in *.
  rewrite <- !is_None_match_unit in Uf, Ut.
  rewrite <- !is_not_None_match_unit in Af, At.
  unfold Ingredient_convert. rewrite Huh. cbn [call bind].
  rewrite Uf, Ut, Af, At. reflexivity.
Qed.

Lemma only_volume_class (uh : UnitsHandler) (s : string) (u : Unit) :
  only_volume uh s u -> unmatched uh s = false /\ ambiguous uh s = false.
Proof.
  intros [Hv Hm]. unfold unmatched, ambiguous.
  rewrite <- !is_None_match_unit, <- !is_not_None_match_unit.
  rewrite Hv, Hm. split; reflexivity.
Qed.

Lemma only_mass_class (uh : UnitsHandler) (s : string) (u : Unit) :
  only_mass uh s u -> unmatched uh s = false /\ ambiguous uh s = false.
Proof.
  intros [Hm Hv]. unfold unmatched, ambiguous.
  rewrite <- !is_None_match_unit, <- !is_not_None_match_unit.
  rewrite Hv, Hm. split; reflexivity.
Qed.

(** Rewrites a conversion whose two unit strings are each classified in
    one category, by [Hu] and [Hv], to the branches behind the guards. *)
Ltac pass_guards Huh Hu Hv :=
  rewrite (@Ingredient_convert_guarded _ _ _ _ _ Huh)
    by first [ apply (only_volume_class Hu) | apply (only_mass_class Hu)
             | apply (only_volume_class Hv) | apply (only_mass_class Hv) ];
  let Hu' := fresh in
  let Hv' := fresh in
  destruct Hu as [Hu Hu']; destruct Hv as [Hv Hv'];
  cbv zeta; rewrite ?Hu, ?Hu', ?Hv, ?Hv'; cbn [is_None call bind].

Section Cases.

Variables (i : Ingredient) (uh : UnitsHandler) (m : Q).
Variables (from_unit : string) (to_unit : option string).
Hypothesis Huh : Ingredient_uh i = Some uh.

Let t : string := or_liter to_unit.

Lemma convert_volume_to_mass (u v : Unit) (d : Q) :
  only_volume uh from_unit u -> only_mass uh t v -> density i = Some d ->
  Ingredient_convert i m from_unit to_unit =
  (x <- convert_from_SI v (convert_to_SI u m * d)%Q ;; Return (x, t)).
Proof.
  unfold t. intros Hu Hv Hd. pass_guards Huh Hu Hv. rewrite Hd. reflexivity.
Qed.

Lemma convert_mass_to_volume (u v : Unit) (d : Q) :
  only_mass uh from_unit u -> only_volume uh t v -> density i = Some d ->
  Ingredient_convert i m from_unit to_unit =
  (liters <- truediv (convert_to_SI u m) d ;;
   x <- convert_from_SI v liters ;; Return (x, t)).
Proof.
  unfold t. intros Hu Hv Hd. pass_guards Huh Hu Hv. rewrite Hd. reflexivity.
Qed.

Lemma convert_within_category (u v : Unit) :
  (only_volume uh from_unit u /\ only_volume uh t v) \/
  (only_mass uh from_unit u /\ only_mass uh t v) ->
  Ingredient_convert i m from_unit to_unit =
  (x <- convert_from_SI v (convert_to_SI u m) ;; Return (x, t)).
Proof.
  unfold t. intros [[Hu Hv]|[Hu Hv]]; pass_guards Huh Hu Hv; reflexivity.
Qed.

Lemma convert_missing_density (u v : Unit) :
  (only_volume uh from_unit u /\ only_mass uh t v) \/
  (only_mass uh from_unit u /\ only_volume uh t v) ->
  density i = None ->
  Ingredient_convert i m from_unit to_unit = Raise MissingDensityError.
Proof.
  unfold t. intros [[Hu Hv]|[Hu Hv]] Hd; pass_guards Huh Hu Hv; rewrite Hd;
    reflexivity.
Qed.

End Cases.

(** C1: once [from_unit] and [to_unit] each resolve in exactly one of the
    volume and mass sets, [Ingredient.convert] returns, paired with
    [to_unit]: for volume to mass with density [d], the target's
    [convert_from_SI] of the SI liters times [d]; for mass to volume, the
    target's [convert_from_SI] of the SI kilograms divided by [d]; within
    one category, the target's [convert_from_SI] of the source's
    [convert_to_SI], whatever the density, absent or not.  Each case is
    given twice: as the outcome of the expression, where a division by a
    zero ratio or density raises on both sides, and as the number returned
    when the divisors are not zero. *)
Theorem Ingredient_convert_cases (i : Ingredient) (uh : UnitsHandler)
    (m : Q) (from_unit : string) (to_unit : option string) :
  Ingredient_uh i = Some uh ->
  let t := or_liter to_unit in
  let convert := Ingredient_convert i m from_unit to_unit in
  (forall u v d,
      only_volume uh from_unit u -> only_mass uh t v -> density i = Some d ->
      convert =
        (x <- convert_from_SI v (convert_to_SI u m * d)%Q ;; Return (x, t))
      /\
      (~ (SI_ratio v == 0)%Q ->
       convert =
         Return (((m * SI_ratio u + SI_offset u) * d - SI_offset v)
                 / SI_ratio v, t)%Q))
  /\
  (forall u v d,
      only_mass uh from_unit u -> only_volume uh t v -> density i = Some d ->
      convert =
        (liters <- truediv (convert_to_SI u m) d ;;
         x <- convert_from_SI v liters ;; Return (x, t))
      /\
      (~ (d == 0)%Q -> ~ (SI_ratio v == 0)%Q ->
       convert =
         Return (((m * SI_ratio u + SI_offset u) / d - SI_offset v)
                 / SI_ratio v, t)%Q))
  /\
  (forall u v,
      (only_volume uh from_unit u /\ only_volume uh t v) \/
      (only_mass uh from_unit u /\ only_mass uh t v) ->
      convert =
        (x <- convert_from_SI v (convert_to_SI u m) ;; Return (x, t))
      /\
      (~ (SI_ratio v == 0)%Q ->
       convert =
         Return ((m * SI_ratio u + SI_offset u - SI_offset v)
                 / SI_ratio v, t)%Q)).
Proof.
  intros Huh t convert. subst convert t.
  split; [|split].
  - intros u v d Hu Hv Hd.
    rewrite (@convert_volume_to_mass i uh m from_unit to_unit Huh u v d
               Hu Hv Hd).
    split; [reflexivity|]. intros Hrv.
    now rewrite (convert_from_SI_nonzero _ _ Hrv).
  - intros u v d Hu Hv Hd.
    rewrite (@convert_mass_to_volume i uh m from_unit to_unit Huh u v d
               Hu Hv Hd).
    split; [reflexivity|]. intros Hd0 Hrv.
    rewrite (truediv_nonzero _ Hd0). cbn [bind].
    now rewrite (convert_from_SI_nonzero _ _ Hrv).
  - intros u v Huv.
    rewrite (@convert_within_category i uh m from_unit to_unit Huh u v
               Huv).
    split; [reflexivity|]. intros Hrv.
    now rewrite (convert_from_SI_nonzero _ _ Hrv).
Qed.

Lemma Ingredient_convert_cases_witness :
  let uh := units_handler pint_ratio in
  let flour := Ingredient_init "flour" None (Some 0.55%Q) (Some uh) in
  exists cup gram,
    only_volume uh "cup" cup /\ only_mass uh "gram" gram /\
    Ingredient_convert flour 2 "cup" (Some "gram") =
      Return (((2 * SI_ratio cup + SI_offset cup) * 0.55 - SI_offset gram)
              / SI_ratio gram, "gram")%Q /\
    (((2 * SI_ratio cup + SI_offset cup) * 0.55 - SI_offset gram)
     / SI_ratio gram == 260.24706015)%Q.
Proof.
  intros uh flour.
  destruct (@Ingredient_convert_cases flour uh 2 "cup" (Some "gram") eq_refl)
    as [volume_to_mass _].
  eexists. eexists.
  assert (forall A B C D : Prop,
             A -> B -> D -> (A -> B -> C) -> A /\ B /\ C /\ D) as both
      by tauto.
  apply both.
  - split; vm_compute; reflexivity.
  - split; vm_compute; reflexivity.
  - vm_compute. reflexivity.
  - intros Hcup Hgram.
    apply (volume_to_mass _ _ _ Hcup Hgram eq_refl).
    vm_compute. discriminate.
Defined.

(** ** Ambiguous unit strings *)

(** C6, amended: [Ingredient.convert] raises the ambiguity error exactly
    when each of the two unit strings matches some unit of the volume or
    mass set and one of them matches units of both; and whenever one of the
    two strings matches both sets the call raises, the ambiguity error or,
    when the other string matches nothing, the unmatched-unit error, so it
    never returns a number. *)
Theorem Ingredient_convert_ambiguity (i : Ingredient) (uh : UnitsHandler)
    (m : Q) (from_unit : string) (to_unit : option string) :
  Ingredient_uh i = Some uh ->
  let t := or_liter to_unit in
  ((exists e, AmbiguousUnitError e /\
              Ingredient_convert i m from_unit to_unit = Raise e)
   <->
   unmatched uh from_unit = false /\ unmatched uh t = false /\
   (ambiguous uh from_unit = true \/ ambiguous uh t = true))
  /\
  (ambiguous uh from_unit = true \/ ambiguous uh t = true ->
   exists e, (AmbiguousUnitError e \/ UnmatchedUnitError e) /\
             Ingredient_convert i m from_unit to_unit = Raise e).
Proof.
  intros Huh t.
  unfold Ingredient_convert, unmatched, ambiguous.
  rewrite Huh. cbn [call bind]. fold t.
  rewrite <- !is_not_None_match_unit.
  destruct (match_unit (volume uh) from_unit) as [v1|],
           (match_unit (mass uh) from_unit) as [m1|],
           (match_unit (volume uh) t) as [v2|],
           (match_unit (mass uh) t) as [m2|];
    cbn [is_None is_not_None negb andb call bind].
  all: unfold AmbiguousUnitError, UnmatchedUnitError.
  all: split; [split|].
  all: try (intros _; eexists; split; [|reflexivity]; tauto).
  all: try (intros _; repeat split; auto; fail).
  all: try (intros [_ [_ [H|H]]]; discriminate H).
  all: try (intros [H|H]; discriminate H).
  all: try (intros [H _]; discriminate H).
  all: try (intros [_ [H _]]; discriminate H).
  all: intros [e [[He|He] H]]; subst e; exfalso; revert H.
  all: unfold convert_from_SI, truediv;
    repeat match goal with
           | |- context [density ?i] => destruct (density i)
           | |- context [Qeq_bool ?a ?b] => destruct (Qeq_bool a b)
           | _ => progress cbn [bind]
           end; discriminate.
Qed.

Lemma Ingredient_convert_ambiguity_witness :
  let uh := units_handler pint_ratio in
  let flour := Ingredient_init "flour" None (Some 0.55%Q) (Some uh) in
  ambiguous uh "g" = true /\
  exists e, (AmbiguousUnitError e \/ UnmatchedUnitError e) /\
            Ingredient_convert flour 2 "g" (Some "cup") = Raise e.
Proof.
  intros uh flour.
  assert (Hg : ambiguous uh "g" = true) by (vm_compute; reflexivity).
  split; [exact Hg|].
  apply (@Ingredient_convert_ambiguity flour uh 2 "g" (Some "cup") eq_refl).
  left. exact Hg.
Defined.

(** The string "g" names the gallon in the volume set and the gram in the
    mass set of the built-in handler; with a target that matches nothing
    the call reports the target, not the ambiguity. *)
Lemma Ingredient_convert_ambiguity_counterexample :
  let uh := units_handler pint_ratio in
  let flour := Ingredient_init "flour" None (Some 0.55%Q) (Some uh) in
  in_set (volume uh) "g" = true /\ in_set (mass uh) "g" = true /\
  Ingredient_convert flour 2 "g" (Some "furlong") =
    Raise (ValueError "couldn't find the to_unit") /\
  ~ AmbiguousUnitError (ValueError "couldn't find the to_unit").
Proof.
  intros uh flour. repeat split; try (vm_compute; reflexivity).
  intros [H|H]; discriminate H.
Qed.

(** ** Round trips *)

Lemma from_SI_to_SI (u : Unit) (m : Q) :
  ~ (SI_ratio u == 0)%Q ->
  exists x, convert_from_SI u (convert_to_SI u m) = Return x /\ (x == m)%Q.
Proof.
  intros Hr. rewrite (convert_from_SI_nonzero _ _ Hr).
  eexists. split; [reflexivity|].
  unfold convert_to_SI. field. exact Hr.
Qed.

(** C7, amended: in exact arithmetic, for a unit of non-zero ratio
    [convert_from_SI] undoes [convert_to_SI], and converting a magnitude
    from [u] to [v] and back within one set, both ratios non-zero, gives
    the magnitude back. *)
Theorem round_trip_exact :
  (forall (u : Unit) (m : Q),
      ~ (SI_ratio u == 0)%Q ->
      exists x,
        convert_from_SI u (convert_to_SI u m) = Return x /\ (x == m)%Q)
  /\
  (forall (set : UnitSet) (m : Q) (su sv : string) (u v : Unit),
      match_unit set su = Some u -> match_unit set sv = Some v ->
      ~ (SI_ratio u == 0)%Q -> ~ (SI_ratio v == 0)%Q ->
      exists x y,
        UnitSet_convert set m su (Some sv) = Return (x, sv) /\
        UnitSet_convert set x sv (Some su) = Return (y, su) /\
        (y == m)%Q).
Proof.
  split; [exact from_SI_to_SI|].
  intros set m su sv u v Hu Hv Hru Hrv.
  unfold UnitSet_convert. rewrite Hu, Hv.
  rewrite (convert_from_SI_nonzero _ _ Hrv). cbn [bind].
  eexists. eexists. split; [reflexivity|].
  rewrite (convert_from_SI_nonzero _ _ Hru). cbn [bind].
  split; [reflexivity|].
  unfold convert_to_SI. field. split; assumption.
Qed.

Lemma round_trip_exact_witness :
  let vol := volume (units_handler pint_ratio) in
  exists x y,
    UnitSet_convert vol 3 "cup" (Some "ml") = Return (x, "ml") /\
    UnitSet_convert vol x "ml" (Some "cup") = Return (y, "cup") /\
    (y == 3)%Q.
Proof.
  intros vol.
  destruct (match_unit vol "cup") as [cup|] eqn:Hcup;
    [|vm_compute in Hcup; discriminate Hcup].
  destruct (match_unit vol "ml") as [ml|] eqn:Hml;
    [|vm_compute in Hml; discriminate Hml].
  apply (proj2 round_trip_exact vol 3 "cup" "ml" cup ml Hcup Hml).
  - vm_compute in Hcup. injection Hcup as <-. vm_compute. discriminate.
  - vm_compute in Hml. injection Hml as <-. vm_compute. discriminate.
Defined.

(** A decimal literal below denotes the nearest binary64 number, as it does
    in the source language. *)
#[local] Set Warnings "-inexact-float".

(** On binary64 numbers the round trip through a unit with an offset loses
    the low digits of a small magnitude: with the ratio 1 and the offset
    273.15 of the celsius unit, 1e-5 comes back as 9.9999999747524271e-06,
    which is further than 1e-9 of 1e-5 from 1e-5. *)
Lemma round_trip_binary64_counterexample :
  let ratio := 1%float in
  let offset := 273.15%float in
  let m := 1e-5%float in
  PrimFloat.eqb ratio 0 = false /\
  Binary64.convert_from_SI ratio offset (Binary64.convert_to_SI ratio offset m)
    = 9.9999999747524271e-06%float /\
  Binary64.within 1e-9
    (Binary64.convert_from_SI ratio offset
       (Binary64.convert_to_SI ratio offset m)) m = false.
Proof. repeat split; vm_compute; reflexivity. Qed.

(** ** Literal patterns *)

Lemma run_literal (n : string) :
  dot_free n = true ->
  forall (s : string) (k : string -> bool),
    Re.run false (Re.parse n) s k = true <->
    exists rest, s = n ++ rest /\ k rest = true.
Proof.
  induction n as [|c n IH]; intros Hn s k.
  - simpl. split.
    + intros H. exists s. split; [reflexivity|exact H].
    + intros [rest [-> H]]. exact H.
  - simpl in Hn. apply andb_true_iff in Hn as [Hc Hn].
    apply negb_true_iff in Hc.
    cbn [Re.parse]. rewrite Hc. cbn [Re.run].
    destruct s as [|x s].
    + split; [discriminate|]. intros [rest [E _]]. discriminate E.
    + unfold Re.char_eq. rewrite andb_true_iff, (IH Hn), Ascii.eqb_eq.
      split.
      * intros [-> [rest [-> H]]]. exists rest. split; [reflexivity|exact H].
      * intros [rest [E H]]. injection E as -> ->.
        split; [reflexivity|]. exists rest. split; [reflexivity|exact H].
Qed.

Lemma search_literal (n s : string) :
  dot_free n = true ->
  Re.search false (Re.parse n) s = true <-> occurs_in n s.
Proof.
  intros Hn. unfold occurs_in.
  induction s as [|x s IH]; cbn [Re.search]; unfold Re.matches;
    rewrite orb_true_iff, (run_literal _ Hn).
  - split.
    + intros [[rest [E _]]|H]; [|discriminate H].
      exists "", rest. exact E.
    + intros [before [after E]]. left.
      destruct before as [|b before]; [|discriminate E].
      exists after. split; [exact E|reflexivity].
  - rewrite IH. split.
    + intros [[rest [E _]]|[before [after E]]].
      * exists "", rest. exact E.
      * exists (String x before), after. simpl. now rewrite E.
    + intros [before [after E]].
      destruct before as [|b before].
      * left. exists after. split; [exact E|reflexivity].
      * right. injection E as _ E. exists before, after. exact E.
Qed.

(** ** What Ingredient.convert can raise *)

Lemma Ingredient_convert_raises (i : Ingredient) (m : Q) (from_unit : string)
    (to_unit : option string) (e : exn) :
  Ingredient_convert i m from_unit to_unit = Raise e ->
  e = AttributeError \/ e = ZeroDivisionError \/ e = MissingDensityError \/
  UnmatchedUnitError e \/ AmbiguousUnitError e.
Proof.
  unfold Ingredient_convert, UnmatchedUnitError, AmbiguousUnitError,
    MissingDensityError, convert_from_SI, truediv.
  destruct (Ingredient_uh i) as [uh|]; cbn [call bind].
  2: { intros H. injection H as <-. tauto. }
  destruct (match_unit (volume uh) from_unit),
           (match_unit (mass uh) from_unit),
           (match_unit (volume uh) (or_liter to_unit)),
           (match_unit (mass uh) (or_liter to_unit));
    cbn [is_None is_not_None negb andb call bind];
    repeat match goal with
           | |- context [density ?i] => destruct (density i)
           | |- context [Qeq_bool ?a ?b] => destruct (Qeq_bool a b)
           | _ => progress cbn [bind]
           end;
    intros H; try discriminate H; injection H as <-; tauto.
Qed.

(** ** The built-in tables *)

Section Builtin.

Variable ureg_ratio : string -> string -> Q.

Let uh : UnitsHandler := units_handler ureg_ratio.

Lemma UnitsHandler_init_returns :
  UnitsHandler_init ureg_ratio = Return uh.
Proof. reflexivity. Qed.

(** The names of the units of each set, in match order. *)
Lemma volume_names :
  map Unit_name (units (volume uh)) =
  ["liter"; "deciliter"; "milliliter"; "drop"; "smidgen"; "pinch"; "dash";
   "saltspoon"; "coffeespoon"; "fluid dram"; "teaspoon"; "dessertspoon";
   "tablespoon"; "fluid ounce"; "wineglass"; "teacup"; "cup"; "pint";
   "quart"; "pottle"; "gallon"].
Proof. reflexivity. Qed.

Lemma mass_names :
  map Unit_name (units (mass uh)) = ["kilogram"; "gram"; "pound"].
Proof. reflexivity. Qed.

Lemma temperature_names :
  map Unit_name (units (temperature uh)) =
  ["fahrenheit"; "celsius"; "kelvin"].
Proof. reflexivity. Qed.

(** Every name of the tables lies in the fragment [Re.parse] reads. *)
Lemma builtin_names_plain :
  forallb (fun u => forallb Re.plain (Unit_allnames u))
    (units (volume uh) ++ units (mass uh) ++ units (temperature uh))%list
  = true.
Proof. vm_compute. reflexivity. Qed.

(** C8: in the volume set "T" resolves to the tablespoon and "t" to the
    teaspoon.  The set lists ten units, none of which matches either
    string, then the case-sensitive teaspoon, which matches "t" and
    rejects "T", then the dessertspoon, which rejects "T", then the
    case-sensitive tablespoon, which matches "T". *)
Theorem T_tablespoon_t_teaspoon :
  exists before teaspoon dessertspoon tablespoon after,
    units (volume uh) =
      (before ++ teaspoon :: dessertspoon :: tablespoon :: after)%list /\
    Unit_name teaspoon = "teaspoon" /\ case_sensitive teaspoon = true /\
    Unit_name tablespoon = "tablespoon" /\ case_sensitive tablespoon = true /\
    forallb (fun u => negb (Unit_match u "T" None || Unit_match u "t" None))
      before = true /\
    Unit_match teaspoon "T" None = false /\
    Unit_match teaspoon "t" None = true /\
    Unit_match dessertspoon "T" None = false /\
    Unit_match tablespoon "T" None = true /\
    match_unit (volume uh) "T" = Some tablespoon /\
    match_unit (volume uh) "t" = Some teaspoon.
Proof.
  exists (firstn 10 (units (volume uh))).
  destruct (skipn 10 (units (volume uh)))
    as [|teaspoon [|dessertspoon [|tablespoon after]]] eqn:E;
    try discriminate E.
  exists teaspoon, dessertspoon, tablespoon, after.
  split.
  { rewrite <- E. symmetry. apply firstn_skipn. }
  injection E as <- <- <- <-.
  repeat split; vm_compute; reflexivity.
Qed.

(** Resolves [match_unit set s] by evaluation: [E] says that it is the
    unit found, written out. *)
Tactic Notation "resolve_unit" constr(set) constr(s) "as" ident(E) :=
  let found := eval vm_compute in (match_unit set s) in
  assert (E : match_unit set s = found) by (vm_compute; reflexivity).

(** C2 on the cup: the unit found for "cup" has the names cup, c and cu
    and ignores case; it matches "cup", "cups." and "CUP", and "cup"
    followed by a backspace character and anything; it does not match
    "cup of flour", where a space follows the name. *)
Theorem cup_of_flour_not_matched :
  exists cup,
    match_unit (volume uh) "cup" = Some cup /\
    Unit_allnames cup = ["cup"; "c"; "cu"] /\
    case_sensitive cup = false /\
    Unit_match cup "cup" None = true /\
    Unit_match cup "cups." None = true /\
    Unit_match cup "CUP" None = true /\
    Unit_match cup ("cup" ++ String Re.backspace "of flour") None = true /\
    Unit_match cup "cup of flour" None = false /\
    in_set (volume uh) "cup of flour" = false.
Proof.
  destruct (match_unit (volume uh) "cup") as [cup|] eqn:E;
    [|vm_compute in E; discriminate E].
  exists cup. split; [reflexivity|].
  vm_compute in E. injection E as <-.
  repeat split; vm_compute; reflexivity.
Qed.

(** The kelvin unit carries the names and the case flag of the celsius
    unit, which stands before it: no string resolves to it. *)
Lemma kelvin_never_found (s : string) (u : Unit) :
  match_unit (temperature uh) s = Some u -> Unit_name u <> "kelvin".
Proof.
  unfold match_unit. cbn [uh units_handler temperature units find].
  unfold Unit_match at 1 2.
  cbn [case_sensitive Unit_allnames].
  unfold Unit_match. cbn [case_sensitive Unit_allnames].
  destruct (existsb _ ["F"; "degF"; "deg F"]).
  - intros H. injection H as <-. discriminate.
  - destruct (existsb _ ["C"; "degC"; "deg C"]).
    + intros H. injection H as <-. discriminate.
    + discriminate.
Qed.

(** Neither "celsius" nor "kelvin" resolves in the temperature set, so a
    conversion between them raises. *)
Lemma celsius_to_kelvin_raises (m : Q) :
  match_unit (temperature uh) "celsius" = None /\
  match_unit (temperature uh) "kelvin" = None /\
  UnitSet_convert (temperature uh) m "celsius" (Some "kelvin") =
    Raise (ValueError "can't match the present unit given").
Proof. repeat split; vm_compute; reflexivity. Qed.

(** C3, amended: in the temperature set the strings "C", "degC" and
    "deg C" resolve to the celsius unit, the name "celsius" to nothing;
    converting 0 from "C" with no target gives 273.15 in the set's SI
    unit, kelvin, converting 100 gives 373.15, and any magnitude comes
    out 273.15 higher. *)
Theorem C_to_SI_is_affine :
  exists celsius,
    Unit_name celsius = "celsius" /\
    match_unit (temperature uh) "C" = Some celsius /\
    match_unit (temperature uh) "degC" = Some celsius /\
    match_unit (temperature uh) "deg C" = Some celsius /\
    match_unit (temperature uh) "celsius" = None /\
    UnitSet_convert (temperature uh) 0 "C" None =
      Return (273.15%Q, "kelvin") /\
    UnitSet_convert (temperature uh) 100 "C" None =
      Return (373.15%Q, "kelvin") /\
    forall m : Q,
      exists x,
        UnitSet_convert (temperature uh) m "C" None = Return (x, "kelvin") /\
        (x == m + 273.15)%Q.
Proof.
  resolve_unit (temperature uh) "C" as HC.
  eexists. split; [|split; [exact HC|]].
  - reflexivity.
  - repeat (split; [vm_compute; reflexivity|]).
    intros m. unfold UnitSet_convert. rewrite HC.
    eexists. split; [reflexivity|].
    unfold convert_to_SI. cbn [SI_ratio SI_offset]. ring.
Qed.

(** C4 on the code: the three temperature units with their ratios and
    offsets; the kelvin unit has the offset 1, not 0. *)
Theorem temperature_constants :
  map (fun u => (Unit_name u, SI_ratio u, SI_offset u))
    (units (temperature uh)) =
  [("fahrenheit", 5 # 9, 255.372); ("celsius", 1, 273.15);
   ("kelvin", 1, 1)]%Q /\
  exists kelvin,
    nth_error (units (temperature uh)) 2 = Some kelvin /\
    Unit_name kelvin = "kelvin" /\
    (SI_ratio kelvin == 1)%Q /\ (SI_offset kelvin == 1)%Q /\
    ~ (SI_offset kelvin == 0)%Q.
Proof.
  split; [reflexivity|].
  eexists. split; [reflexivity|]. cbn [Unit_name SI_ratio SI_offset].
  repeat split; try reflexivity. discriminate.
Qed.

(** C5: the built-in ingredient found for "vanilla" has no density.
    Converting any magnitude from "cup" to "gram" raises the
    missing-density error; converting from "cup" to "liter" returns the
    magnitude times the cup's ratio over the liter's, as soon as the
    registry gives the liter a non-zero ratio.  A conversion is a function
    of the ingredient and assigns nothing, so the ingredient found for
    "vanilla" afterwards is the same. *)
Theorem vanilla_needs_no_density_within_volume (m : Q) :
  ~ (ureg_ratio "liter" "liter" == 0)%Q ->
  let ih := IngredientsHandler_init (Some uh) in
  exists vanilla,
    match_name ih "vanilla" = Some vanilla /\
    Ingredient_name vanilla = "vanilla" /\
    density vanilla = None /\
    Ingredient_convert vanilla m "cup" (Some "gram") =
      Raise MissingDensityError /\
    IngredientsHandler_convert ih "vanilla" m "cup" (Some "gram") =
      Raise MissingDensityError /\
    exists x,
      Ingredient_convert vanilla m "cup" (Some "liter") =
        Return (x, "liter") /\
      IngredientsHandler_convert ih "vanilla" m "cup" (Some "liter") =
        Return (x, "liter") /\
      (x == m * ureg_ratio "cup" "liter" / ureg_ratio "liter" "liter")%Q.
Proof.
  intros Hliter ih.
  exists (Ingredient_init "vanilla" None None (Some uh)).
  set (vanilla := Ingredient_init "vanilla" None None (Some uh)).
  assert (Hfind : match_name ih "vanilla" = Some vanilla)
    by (vm_compute; reflexivity).
  unfold IngredientsHandler_convert. rewrite Hfind.
  assert (Hgram : Ingredient_convert vanilla m "cup" (Some "gram") =
                  Raise MissingDensityError)
    by (vm_compute; reflexivity).
  repeat (split; [first [exact Hfind | exact Hgram | reflexivity]|]).
  resolve_unit (volume uh) "cup" as Hcup.
  resolve_unit (volume uh) "liter" as Hliter_unit.
  rewrite (@convert_within_category vanilla uh m "cup" (Some "liter") eq_refl
             _ _ (or_introl (conj (conj Hcup eq_refl)
                                  (conj Hliter_unit eq_refl)))).
  rewrite convert_from_SI_nonzero by exact Hliter. cbn [bind or_liter].
  eexists. repeat (split; [reflexivity|]).
  unfold convert_to_SI. cbn [SI_ratio SI_offset]. field. exact Hliter.
Qed.

(** C10: the package, bag and can units are built and dropped: no unit of
    the three sets is one of them, by name or by alias.  Hence each of the
    strings "package", "bag" and "can" matches nothing in the volume and
    mass sets, and for every ingredient on the built-in handler, every
    magnitude and every other unit string, a conversion from or to that
    string raises the unmatched-unit error.  No lookup in any of the three
    sets returns one of the three units, so no conversion computes with
    their ratio. *)
Theorem sentinel_units_unmatched (name : string) (allnames : list string)
    (d : option Q) (m : Q) (other : string) (to_unit : option string) :
  let i := {| Ingredient_name := name; Ingredient_allnames := allnames;
              density := d; Ingredient_uh := Some uh |} in
  let all_units :=
    (units (volume uh) ++ units (mass uh) ++ units (temperature uh))%list in
  let sentinel (s : string) : Prop :=
    (forall al u,
        Unit_init ureg_ratio s "liter" (Some al) (Some (-1)%Q) (-1) false
          = Return u ->
        ~ In u all_units) /\
    forallb (fun u => negb (String.eqb (Unit_name u) s) &&
                      negb (existsb (String.eqb s) (Unit_allnames u)))
      all_units = true /\
    unmatched uh s = true /\
    (exists e, UnmatchedUnitError e /\
               Ingredient_convert i m s to_unit = Raise e) /\
    (exists e, UnmatchedUnitError e /\
               Ingredient_convert i m other (Some s) = Raise e) in
  sentinel "package" /\ sentinel "bag" /\ sentinel "can" /\
  (forall set s u,
      In set [volume uh; mass uh; temperature uh] ->
      match_unit set s = Some u ->
      existsb (String.eqb (Unit_name u)) ["package"; "bag"; "can"] = false).
Proof.
  intros i all_units sentinel.
  assert (found_is_listed : forall set s u,
             In set [volume uh; mass uh; temperature uh] ->
             match_unit set s = Some u ->
             existsb (String.eqb (Unit_name u)) ["package"; "bag"; "can"]
             = false).
  { intros set s u Hset Hm. apply match_unit_Some_in in Hm as [Hin _].
    assert (Hall : forallb
                     (fun u => negb (existsb (String.eqb (Unit_name u))
                                       ["package"; "bag"; "can"]))
                     all_units = true) by (vm_compute; reflexivity).
    rewrite forallb_forall in Hall. apply negb_true_iff, Hall.
    unfold all_units. rewrite !in_app_iff.
    destruct Hset as [<-|[<-|[<-|[]]]]; tauto. }
  assert (from_unmatched : forall s t,
             unmatched uh s = true ->
             exists e, UnmatchedUnitError e /\
                       Ingredient_convert i m s t = Raise e).
  { intros s t Hs. unfold unmatched in Hs.
    rewrite <- !is_None_match_unit in Hs.
    unfold Ingredient_convert. cbn [i Ingredient_uh call bind].
    rewrite Hs. eexists. split; [left|]; reflexivity. }
  assert (to_unmatched : forall s,
             unmatched uh s = true ->
             exists e, UnmatchedUnitError e /\
                       Ingredient_convert i m other (Some s) = Raise e).
  { intros s Hs. unfold unmatched in Hs.
    rewrite <- !is_None_match_unit in Hs.
    unfold Ingredient_convert. cbn [i Ingredient_uh call bind or_liter].
    rewrite Hs.
    destruct (is_None (match_unit (volume uh) other) &&
              is_None (match_unit (mass uh) other));
      eexists; (split; [|reflexivity]); [left|right]; reflexivity. }
  assert (never_appended : forall s,
             forallb (fun u => negb (String.eqb (Unit_name u) s))
               all_units = true ->
             forall al u,
               Unit_init ureg_ratio s "liter" (Some al) (Some (-1)%Q) (-1)
                 false = Return u ->
               ~ In u all_units).
  { intros s Hs al u Hu Hin. cbn in Hu. injection Hu as <-.
    rewrite forallb_forall in Hs. specialize (Hs _ Hin).
    cbn [Unit_name] in Hs. rewrite String.eqb_refl in Hs. discriminate Hs. }
  assert (Hp : unmatched uh "package" = true) by (vm_compute; reflexivity).
  assert (Hb : unmatched uh "bag" = true) by (vm_compute; reflexivity).
  assert (Hc : unmatched uh "can" = true) by (vm_compute; reflexivity).
  unfold sentinel.
  repeat split;
    first [ exact found_is_listed
          | apply never_appended; vm_compute; reflexivity
          | exact Hp | exact Hb | exact Hc
          | apply from_unmatched; assumption
          | apply to_unmatched; assumption
          | vm_compute; reflexivity ].
Qed.

(** The density bridge on the built-in tables: two cups of flour in
    grams are the liters of two cups, times the density 0.55, over the
    gram's ratio, whatever values the registry gives the cup and the
    gram, as long as the gram's is not zero. *)
Theorem flour_cups_to_grams :
  ~ (ureg_ratio "gram" "kilogram" == 0)%Q ->
  let ih := IngredientsHandler_init (Some uh) in
  exists x,
    IngredientsHandler_convert ih "flour" 2 "cup" (Some "gram") =
      Return (x, "gram") /\
    (x == 2 * ureg_ratio "cup" "liter" * 0.55 / ureg_ratio "gram" "kilogram")%Q.
Proof.
  intros Hgram ih.
  set (flour := Ingredient_init "flour" None (Some 0.55%Q) (Some uh)).
  assert (Hfind : match_name ih "flour" = Some flour)
    by (vm_compute; reflexivity).
  unfold IngredientsHandler_convert. rewrite Hfind.
  resolve_unit (volume uh) "cup" as Hcup.
  resolve_unit (mass uh) "gram" as Hg.
  rewrite (@convert_volume_to_mass flour uh 2 "cup" (Some "gram") eq_refl
             _ _ 0.55%Q (conj Hcup eq_refl) (conj Hg eq_refl) eq_refl).
  rewrite convert_from_SI_nonzero by exact Hgram. cbn [bind or_liter].
  eexists. split; [reflexivity|].
  unfold convert_to_SI. cbn [SI_ratio SI_offset]. field. exact Hgram.
Qed.

(** The string "g" names the gallon in the volume set and the gram in
    the mass set: on the built-in handler every conversion from "g"
    raises, the ambiguity error or, when the target matches nothing, the
    unmatched-unit error. *)
Theorem g_is_gallon_and_gram (name : string) (allnames : list string)
    (d : option Q) (m : Q) (to_unit : option string) :
  let i := {| Ingredient_name := name; Ingredient_allnames := allnames;
              density := d; Ingredient_uh := Some uh |} in
  option_map Unit_name (match_unit (volume uh) "g") = Some "gallon" /\
  option_map Unit_name (match_unit (mass uh) "g") = Some "gram" /\
  exists e, (AmbiguousUnitError e \/ UnmatchedUnitError e) /\
            Ingredient_convert i m "g" to_unit = Raise e.
Proof.
  intros i. split; [vm_compute; reflexivity|].
  split; [vm_compute; reflexivity|].
  resolve_unit (volume uh) "g" as Hv.
  resolve_unit (mass uh) "g" as Hm.
  unfold Ingredient_convert, AmbiguousUnitError, UnmatchedUnitError.
  cbn [i Ingredient_uh call bind]. rewrite Hv, Hm.
  cbn [is_None is_not_None negb andb].
  destruct (is_None (match_unit (volume uh) (or_liter to_unit)) &&
            is_None (match_unit (mass uh) (or_liter to_unit)));
    eexists; (split; [|reflexivity]); [right; right|left; left]; reflexivity.
Qed.

End Builtin.

Lemma vanilla_needs_no_density_within_volume_witness :
  let ih := IngredientsHandler_init (Some (units_handler pint_ratio)) in
  exists vanilla x,
    match_name ih "vanilla" = Some vanilla /\
    Ingredient_convert vanilla 2 "cup" (Some "gram") =
      Raise MissingDensityError /\
    Ingredient_convert vanilla 2 "cup" (Some "liter") = Return (x, "liter") /\
    (x == 0.473176473)%Q.
Proof.
  intros ih.
  assert (Hliter : ~ (pint_ratio "liter" "liter" == 0)%Q)
    by (vm_compute; discriminate).
  destruct (vanilla_needs_no_density_within_volume pint_ratio 2 Hliter)
    as [vanilla [Hfind [_ [_ [Hgram [_ [x [Hx [_ Heq]]]]]]]]].
  exists vanilla, x.
  repeat split; try assumption.
  rewrite Heq. vm_compute. reflexivity.
Defined.

(** The conversion the specification gives as an example raises: the
    names "celsius" and "kelvin" are not among the names of the
    temperature units. *)
Lemma celsius_to_kelvin_counterexample :
  let temp := temperature (units_handler pint_ratio) in
  match_unit temp "celsius" = None /\
  match_unit temp "kelvin" = None /\
  UnitSet_convert temp 0 "celsius" (Some "kelvin") =
    Raise (ValueError "can't match the present unit given") /\
  UnitSet_convert temp 100 "celsius" (Some "kelvin") =
    Raise (ValueError "can't match the present unit given").
Proof. repeat split; vm_compute; reflexivity. Qed.

(** ** Ingredient lookup *)

(** C9: the built-in ingredients are flour, salt, sugar, water, butter
    and vanilla, whatever the units handler; none of their names occurs in
    "cinnamon", and converting "cinnamon" raises the unmatched-ingredient
    error.  For every handler, the conversion raises that error exactly
    when no ingredient of the handler matches the name. *)
Theorem cinnamon_unmatched :
  (forall units_handler_arg : option UnitsHandler,
      let ih := IngredientsHandler_init units_handler_arg in
      map Ingredient_name (ingredients ih) =
        ["flour"; "salt"; "sugar"; "water"; "butter"; "vanilla"] /\
      (forall i n,
          In i (ingredients ih) -> In n (Ingredient_allnames i) ->
          ~ occurs_in n "cinnamon") /\
      match_name ih "cinnamon" = None /\
      IngredientsHandler_convert ih "cinnamon" 1 "tsp" (Some "ml") =
        Raise UnmatchedIngredientError)
  /\
  (forall (ih : IngredientsHandler) (name : string) (m : Q)
          (from_unit : string) (to_unit : option string),
      IngredientsHandler_convert ih name m from_unit to_unit =
        Raise UnmatchedIngredientError
      <->
      (forall i, In i (ingredients ih) -> match_string i name = false)).
Proof.
  split.
  - intros uho ih. split; [reflexivity|]. split; [|split; reflexivity].
    intros i n Hi Hn Hocc.
    assert (Hfree : dot_free n = true).
    { cbn in Hi.
      repeat (destruct Hi as [<-|Hi]; [destruct Hn as [<-|[]]; reflexivity|]).
      destruct Hi. }
    apply (search_literal _ "cinnamon" Hfree) in Hocc.
    cbn in Hi.
    repeat (destruct Hi as [<-|Hi];
            [destruct Hn as [<-|[]]; vm_compute in Hocc; discriminate Hocc|]).
    destruct Hi.
  - intros ih name m from_unit to_unit.
    unfold IngredientsHandler_convert, match_name.
    destruct (find (fun i => match_string i name) (ingredients ih))
      as [i|] eqn:E.
    + split.
      * intros H. apply Ingredient_convert_raises in H.
        unfold UnmatchedUnitError, AmbiguousUnitError, MissingDensityError,
          UnmatchedIngredientError in H.
        repeat (destruct H as [H|H]; try discriminate H).
      * intros H. apply find_some in E as [Hin Hm].
        rewrite (H _ Hin) in Hm. discriminate Hm.
    + split; [|reflexivity].
      intros _ i Hin. exact (find_none _ _ E _ Hin).
Qed.

(** ** Lookup order *)

Lemma find_first {A : Type} (f : A -> bool) (l : list A) (x : A) :
  find f l = Some x <->
  exists l1 l2,
    l = (l1 ++ x :: l2)%list /\ f x = true /\
    forallb (fun y => negb (f y)) l1 = true.
Proof.
  induction l as [|a l IH]; cbn [find].
  - split; [discriminate|].
    intros [[|b l1] [l2 [E _]]]; discriminate E.
  - destruct (f a) eqn:Fa.
    + split.
      * intros H. injection H as <-. exists [], l. auto.
      * intros [[|b l1] [l2 [E [Fx Hall]]]]; injection E as <- _.
        -- reflexivity.
        -- cbn in Hall. rewrite Fa in Hall. discriminate Hall.
    + rewrite IH. split.
      * intros [l1 [l2 [-> [Fx Hall]]]].
        exists (a :: l1), l2. cbn. rewrite Fa. auto.
      * intros [[|b l1] [l2 [E [Fx Hall]]]]; injection E as <- ->.
        -- rewrite Fx in Fa. discriminate Fa.
        -- exists l1, l2. cbn in Hall. rewrite Fa in Hall. auto.
Qed.

(** [UnitSet.match_unit] returns the first unit, in insertion order, whose
    [match] succeeds, and [None] exactly when no unit of the set
    matches. *)
Theorem match_unit_first_match (set : UnitSet) (s : string) :
  (forall u,
      match_unit set s = Some u <->
      exists before after,
        units set = (before ++ u :: after)%list /\
        Unit_match u s None = true /\
        forallb (fun x => negb (Unit_match x s None)) before = true)
  /\
  (match_unit set s = None <-> in_set set s = false).
Proof.
  split.
  - intros u. unfold match_unit.
    apply (find_first (fun x => Unit_match x s None)).
  - rewrite <- is_not_None_match_unit.
    destruct (match_unit set s); cbn; split; congruence.
Qed.



(** An ingredient added under the one name of an ingredient already
    registered is never found: lookups give what they gave before. *)
Theorem add_ingredient_shadowed (ih : IngredientsHandler) (i : Ingredient)
    (n : string) (d : option Q) (s : string) :
  In i (ingredients ih) -> Ingredient_allnames i = [n] ->
  match_name (add_ingredient ih n d) s = match_name ih s.
Proof.
  intros Hin Hn. unfold match_name, add_ingredient. cbn [ingredients].
  induction (ingredients ih) as [|a l IH]; [destruct Hin|].
  cbn [app find]. destruct (match_string a s) eqn:Ha; [reflexivity|].
  destruct Hin as [->|Hin]; [|exact (IH Hin)].
  clear IH. induction l as [|b l IH]; cbn [app find].
  - unfold match_string in *. cbn [Ingredient_init Ingredient_allnames].
    rewrite Hn in Ha. rewrite Ha. reflexivity.
  - destruct (match_string b s); [reflexivity|exact IH].
Qed.

Lemma add_ingredient_shadowed_witness :
  let ih := IngredientsHandler_init None in
  option_map density (match_name (add_ingredient ih "salt" (Some 2%Q)) "salt")
  = Some (Some 1.2%Q).
Proof.
  intros ih.
  rewrite (@add_ingredient_shadowed ih
             (Ingredient_init "salt" None (Some 1.2%Q) None)
             "salt" (Some 2%Q) "salt").
  - reflexivity.
  - cbn. tauto.
  - reflexivity.
Defined.

Lemma flour_cups_to_grams_witness :
  let ih := IngredientsHandler_init (Some (units_handler pint_ratio)) in
  exists x,
    IngredientsHandler_convert ih "flour" 2 "cup" (Some "gram") =
      Return (x, "gram") /\
    (x == 260.24706015)%Q.
Proof.
  intros ih.
  assert (Hgram : ~ (pint_ratio "gram" "kilogram" == 0)%Q)
    by (vm_compute; discriminate).
  destruct (flour_cups_to_grams pint_ratio Hgram) as [x [Hx Heq]].
  exists x. split; [exact Hx|].
  rewrite Heq. vm_compute. reflexivity.
Defined.

(** ** Facts about the pattern fragment *)

Lemma char_eq_refl (ic : bool) (c : ascii) : Re.char_eq ic c c = true.
Proof. destruct ic; unfold Re.char_eq; apply Ascii.eqb_refl. Qed.






Lemma same_text_sensitive (a b : string) :
  same_text false a b = true <-> a = b.
Proof.
  revert b. induction a as [|x a IH]; intros [|y b]; cbn;
    try (split; [discriminate|discriminate]); [tauto|].
  unfold Re.char_eq. rewrite andb_true_iff, Ascii.eqb_eq, IH.
  split; [intros [-> ->]; reflexivity|intros H; injection H; auto].
Qed.

Lemma same_text_refl (ic : bool) (a : string) : same_text ic a a = true.
Proof.
  induction a as [|x a IH]; cbn; [reflexivity|].
  now rewrite char_eq_refl.
Qed.

(** The continuation only matters through its values. *)
Lemma run_ext (ic : bool) (r : Re.regex) :
  forall (s : string) (k k' : string -> bool),
    (forall x, k x = k' x) -> Re.run ic r s k = Re.run ic r s k'.
Proof.
  induction r as [| p | | r1 IH1 r2 IH2 | r1 IH1 r2 IH2 | r1 IH1 | ];
    intros s k k' H; cbn [Re.run].
  - apply H.
  - destruct s; [reflexivity|]. now rewrite H.
  - destruct s; [reflexivity|]. now rewrite H.
  - apply IH1. intros x. now apply IH2.
  - now rewrite (IH1 s k k' H), (IH2 s k k' H).
  - now rewrite (IH1 s k k' H), H.
  - now rewrite H.
Qed.






(** ** What Unit.match accepts *)

Lemma Unit_match_flag (u : Unit) (s : string) (cs : option bool) :
  Unit_match u s cs =
  existsb
    (fun n =>
       Re.matches
         (negb match cs with None => case_sensitive u | Some b => b end)
         (unit_pattern n) s)
    (Unit_allnames u).
Proof.
  unfold Unit_match.
  destruct (match cs with None => case_sensitive u | Some b => b end);
    reflexivity.
Qed.






(** ** Names as sets *)

Lemma existsb_same_members {A : Type} (f : A -> bool) (l1 l2 : list A) :
  (forall x, In x l1 <-> In x l2) -> existsb f l1 = existsb f l2.
Proof.
  intros H. apply eq_true_iff_eq. rewrite !existsb_exists.
  split; intros [x [Hin Hf]]; exists x; (split; [apply H; exact Hin|exact Hf]).
Qed.

(** The names of a unit and of an ingredient are sets in the source, and
    the model lists them: whether a string matches depends on which
    names are listed only, not on their order or repetition. *)
Theorem matching_ignores_name_order :
  (forall (u1 u2 : Unit) (s : string) (cs : option bool),
      (forall n, In n (Unit_allnames u1) <-> In n (Unit_allnames u2)) ->
      case_sensitive u1 = case_sensitive u2 ->
      Unit_match u1 s cs = Unit_match u2 s cs)
  /\
  (forall (i1 i2 : Ingredient) (s : string),
      (forall n, In n (Ingredient_allnames i1) <->
                 In n (Ingredient_allnames i2)) ->
      match_string i1 s = match_string i2 s).
Proof.
  split.
  - intros u1 u2 s cs Hn Hc. rewrite !Unit_match_flag, Hc.
    now apply existsb_same_members.
  - intros i1 i2 s Hn. unfold match_string. now apply existsb_same_members.
Qed.

Lemma matching_ignores_name_order_witness :
  let u1 := {| Unit_name := "cup"; SI_ratio := 1; SI_offset := 0;
               SI_unit := "liter"; Unit_allnames := ["cup"; "c"; "cu"];
               case_sensitive := false |} in
  let u2 := {| Unit_name := "cup"; SI_ratio := 1; SI_offset := 0;
               SI_unit := "liter"; Unit_allnames := ["cu"; "cup"; "c"; "cu"];
               case_sensitive := false |} in
  Unit_match u1 "Cu." None = Unit_match u2 "Cu." None.
Proof.
  intros u1 u2.
  apply (proj1 matching_ignores_name_order u1 u2 "Cu." None); [|reflexivity].
  intros n. cbn. tauto.
Defined.

(** ** Unit.expand_allnames *)

Lemma In_expand_allnames (u : Unit) (n : string) :
  In n (Unit_allnames (expand_allnames u)) <->
  In n (Unit_allnames u) \/
  exists p, In p (Unit_allnames u) /\
            (n = p ++ "." \/ n = p ++ "s" \/ n = p ++ "s.").
Proof.
  unfold expand_allnames. cbn [Unit_allnames].
  rewrite in_app_iff, in_flat_map. split.
  - intros [H|[p [Hp H]]]; [auto|]. right. exists p. cbn in H.
    split; [exact Hp|]. intuition auto.
  - intros [H|[p [Hp H]]]; [auto|]. right. exists p. cbn.
    split; [exact Hp|]. intuition auto.
Qed.

(** [expand_allnames] keeps the name, the conversion constants and the
    case flag of the unit, and only adds names: every string the unit
    matched is still matched. *)
Theorem expand_allnames_keeps_matches (u : Unit) (s : string)
    (cs : option bool) :
  Unit_match u s cs = true ->
  Unit_match (expand_allnames u) s cs = true /\
  Unit_name (expand_allnames u) = Unit_name u /\
  (forall m, convert_to_SI (expand_allnames u) m = convert_to_SI u m) /\
  (forall x, convert_from_SI (expand_allnames u) x = convert_from_SI u x).
Proof.
  intros H. split; [|repeat split].
  rewrite Unit_match_flag in *. cbn [case_sensitive expand_allnames].
  rewrite existsb_exists in *. destruct H as [n [Hin H]].
  exists n. split; [|exact H].
  apply (In_expand_allnames u n). left. exact Hin.
Qed.

Lemma expand_allnames_keeps_matches_witness :
  let cup := {| Unit_name := "cup"; SI_ratio := 1; SI_offset := 0;
                SI_unit := "liter"; Unit_allnames := ["cup"; "c"];
                case_sensitive := false |} in
  Unit_match (expand_allnames cup) "cups" None = true.
Proof.
  intros cup.
  apply (expand_allnames_keeps_matches cup "cups" None). reflexivity.
Defined.



(** ** Case-insensitive units *)






(** ** UnitSet.convert *)

(** The outcomes of [UnitSet.convert]: it returns when the source string
    resolves and either no target is given, and the result is the SI
    magnitude under the SI name of the set, or the target resolves to a
    unit of non-zero ratio, and the result carries the target string as
    given; it raises the unmatched error when the source or the given
    target resolves to nothing, the source being looked up first, and a
    division error when the target's ratio is zero. *)
Theorem UnitSet_convert_outcome (set : UnitSet) (m : Q) (unit_name : string)
    (to_unit : option string) :
  match UnitSet_convert set m unit_name to_unit with
  | Return (x, name) =>
      exists u,
        match_unit set unit_name = Some u /\
        match to_unit with
        | None => name = UnitSet_SI_unit set /\ x = convert_to_SI u m
        | Some t =>
            name = t /\
            exists v,
              match_unit set t = Some v /\ ~ (SI_ratio v == 0)%Q /\
              x = ((convert_to_SI u m - SI_offset v) / SI_ratio v)%Q
        end
  | Raise e =>
      (e = ValueError "can't match the present unit given" /\
       (in_set set unit_name = false \/
        exists t, to_unit = Some t /\ in_set set t = false))
      \/
      (e = ZeroDivisionError /\
       exists t v,
         to_unit = Some t /\ in_set set unit_name = true /\
         match_unit set t = Some v /\ (SI_ratio v == 0)%Q)
  end.
Proof.
  unfold UnitSet_convert.
  rewrite <- !is_not_None_match_unit.
  destruct (match_unit set unit_name) as [u|] eqn:Eu; cbn [is_not_None is_None negb].
  2: { left. auto. }
  destruct to_unit as [t|].
  2: { exists u. auto. }
  pose proof (is_not_None_match_unit set t) as Et.
  destruct (match_unit set t) as [v|] eqn:Ev; cbn in Et.
  2: { left. split; [reflexivity|]. right. exists t. auto. }
  unfold convert_from_SI, truediv.
  destruct (Qeq_bool (SI_ratio v) 0) eqn:Er; cbn [bind].
  - right. split; [reflexivity|]. exists t, v.
    apply Qeq_bool_eq in Er. auto.
  - exists u. split; [reflexivity|]. split; [reflexivity|]. exists v.
    split; [reflexivity|]. split; [|reflexivity].
    intros H. apply Qeq_bool_iff in H. rewrite H in Er. discriminate Er.
Qed.

(** Conversions within a set compose: converting from [a] to [b] and
    the result from [b] to [c] gives what converting from [a] to [c]
    gives, and converting from a unit to itself gives the magnitude
    back. *)
Theorem UnitSet_convert_compose (set : UnitSet) (m : Q) (a b c : string)
    (u v w : Unit) :
  match_unit set a = Some u -> match_unit set b = Some v ->
  match_unit set c = Some w ->
  ~ (SI_ratio v == 0)%Q -> ~ (SI_ratio w == 0)%Q ->
  exists x y z same,
    UnitSet_convert set m a (Some b) = Return (x, b) /\
    UnitSet_convert set x b (Some c) = Return (y, c) /\
    UnitSet_convert set m a (Some c) = Return (z, c) /\
    (y == z)%Q /\
    UnitSet_convert set m b (Some b) = Return (same, b) /\
    (same == m)%Q.
Proof.
  intros Hu Hv Hw Hrv Hrw.
  assert (step : forall n p q sp sq,
             match_unit set sp = Some p -> match_unit set sq = Some q ->
             ~ (SI_ratio q == 0)%Q ->
             UnitSet_convert set n sp (Some sq) =
             Return (((convert_to_SI p n - SI_offset q) / SI_ratio q)%Q, sq)).
  { intros n p q sp sq Hp Hq Hr. unfold UnitSet_convert.
    rewrite Hp, Hq, (convert_from_SI_nonzero _ _ Hr). reflexivity. }
  do 4 eexists.
  split; [exact (step m u v a b Hu Hv Hrv)|].
  split; [exact (step _ v w b c Hv Hw Hrw)|].
  split; [exact (step m u w a c Hu Hw Hrw)|].
  split; [unfold convert_to_SI; field; repeat split; assumption|].
  split; [exact (step m v v b b Hv Hv Hrv)|].
  unfold convert_to_SI. field. assumption.
Qed.

Lemma UnitSet_convert_compose_witness :
  let vol := volume (units_handler pint_ratio) in
  exists x y z,
    UnitSet_convert vol 3 "gallon" (Some "quart") = Return (x, "quart") /\
    UnitSet_convert vol x "quart" (Some "cup") = Return (y, "cup") /\
    UnitSet_convert vol 3 "gallon" (Some "cup") = Return (z, "cup") /\
    (y == z)%Q /\ (z == 48)%Q.
Proof.
  intros vol.
  destruct (match_unit vol "gallon") as [u|] eqn:Hu;
    [|vm_compute in Hu; discriminate Hu].
  destruct (match_unit vol "quart") as [v|] eqn:Hv;
    [|vm_compute in Hv; discriminate Hv].
  destruct (match_unit vol "cup") as [w|] eqn:Hw;
    [|vm_compute in Hw; discriminate Hw].
  assert (Hrv : ~ (SI_ratio v == 0)%Q)
    by (vm_compute in Hv; injection Hv as <-; vm_compute; discriminate).
  assert (Hrw : ~ (SI_ratio w == 0)%Q)
    by (vm_compute in Hw; injection Hw as <-; vm_compute; discriminate).
  destruct (UnitSet_convert_compose vol 3 "gallon" "quart" "cup"
              Hu Hv Hw Hrv Hrw)
    as [x [y [z [same [H1 [H2 [H3 [H4 _]]]]]]]].
  exists x, y, z. repeat (split; [assumption|]).
  unfold UnitSet_convert in H3. rewrite Hu, Hw in H3.
  vm_compute in Hu, Hw. injection Hu as <-. injection Hw as <-.
  vm_compute in H3. injection H3 as <-. reflexivity.
Defined.




(** ** The density bridge, there and back *)

(** For an ingredient with a non-zero density, converting a volume to a
    mass and the result back to the volume unit gives the magnitude
    back, and so does converting a mass to a volume and back, when the
    ratios of the two units are not zero. *)
Theorem density_round_trip (i : Ingredient) (uh : UnitsHandler) (m : Q)
    (a b : string) (u v : Unit) (d : Q) :
  Ingredient_uh i = Some uh ->
  only_volume uh a u -> only_mass uh b v -> density i = Some d ->
  ~ (d == 0)%Q -> ~ (SI_ratio u == 0)%Q -> ~ (SI_ratio v == 0)%Q ->
  (exists x y,
      Ingredient_convert i m a (Some b) = Return (x, b) /\
      Ingredient_convert i x b (Some a) = Return (y, a) /\ (y == m)%Q)
  /\
  (exists x y,
      Ingredient_convert i m b (Some a) = Return (x, a) /\
      Ingredient_convert i x a (Some b) = Return (y, b) /\ (y == m)%Q).
Proof.
  intros Huh Ha Hb Hd Hd0 Hru Hrv.
  assert (there : forall n,
             Ingredient_convert i n a (Some b) =
             Return (((convert_to_SI u n * d - SI_offset v) / SI_ratio v)%Q,
                     b)).
  { intros n.
    rewrite (@convert_volume_to_mass i uh n a (Some b) Huh u v d Ha Hb Hd).
    rewrite (convert_from_SI_nonzero _ _ Hrv). reflexivity. }
  assert (back : forall n,
             Ingredient_convert i n b (Some a) =
             Return (((convert_to_SI v n / d - SI_offset u) / SI_ratio u)%Q,
                     a)).
  { intros n.
    rewrite (@convert_mass_to_volume i uh n b (Some a) Huh v u d Hb Ha Hd).
    rewrite (truediv_nonzero _ Hd0). cbn [bind].
    rewrite (convert_from_SI_nonzero _ _ Hru). reflexivity. }
  split; do 2 eexists.
  - split; [apply there|]. split; [apply back|].
    unfold convert_to_SI. field. repeat split; assumption.
  - split; [apply back|]. split; [apply there|].
    unfold convert_to_SI. field. repeat split; assumption.
Qed.

Lemma density_round_trip_witness :
  let uh := units_handler pint_ratio in
  let butter := Ingredient_init "butter" None (Some 0.9%Q) (Some uh) in
  exists x y,
    Ingredient_convert butter 2 "tbsp" (Some "gram") = Return (x, "gram") /\
    Ingredient_convert butter x "gram" (Some "tbsp") = Return (y, "tbsp") /\
    (y == 2)%Q.
Proof.
  intros uh butter.
  destruct (match_unit (volume uh) "tbsp") as [u|] eqn:Hu;
    [|vm_compute in Hu; discriminate Hu].
  destruct (match_unit (mass uh) "gram") as [v|] eqn:Hv;
    [|vm_compute in Hv; discriminate Hv].
  assert (Hru : ~ (SI_ratio u == 0)%Q)
    by (vm_compute in Hu; injection Hu as <-; vm_compute; discriminate).
  assert (Hrv : ~ (SI_ratio v == 0)%Q)
    by (vm_compute in Hv; injection Hv as <-; vm_compute; discriminate).
  assert (Hd0 : ~ (0.9 == 0)%Q) by (vm_compute; discriminate).
  apply (@density_round_trip butter uh 2 "tbsp" "gram" u v 0.9%Q eq_refl
           (conj Hu eq_refl) (conj Hv eq_refl) eq_refl Hd0 Hru Hrv).
Defined.

(** ** Adding ingredients *)

Lemma find_app_Some {A : Type} (f : A -> bool) (l l' : list A) (x : A) :
  find f l = Some x -> find f (l ++ l') = Some x.
Proof.
  induction l as [|a l IH]; cbn; [discriminate|].
  destruct (f a); [auto|exact IH].
Qed.



(** Adding an ingredient changes no lookup that already succeeded: the
    ingredient found for a name before the call is the one found
    after it, and conversions under that name give what they gave. *)
Theorem add_ingredient_keeps_lookups (ih : IngredientsHandler)
    (name : string) (d : option Q) (s : string) (i : Ingredient) :
  match_name ih s = Some i ->
  match_name (add_ingredient ih name d) s = Some i /\
  (forall m from_unit to_unit,
      IngredientsHandler_convert (add_ingredient ih name d) s m from_unit
        to_unit =
      IngredientsHandler_convert ih s m from_unit to_unit).
Proof.
  intros H.
  assert (H' : match_name (add_ingredient ih name d) s = Some i).
  { unfold match_name, add_ingredient in *. cbn [ingredients].
    now apply find_app_Some. }
  split; [exact H'|]. intros m from_unit to_unit.
  unfold IngredientsHandler_convert. rewrite H, H'. reflexivity.
Qed.

Lemma add_ingredient_keeps_lookups_witness :
  let ih := IngredientsHandler_init None in
  option_map Ingredient_name
    (match_name (add_ingredient ih "sea salt" (Some 1.1%Q)) "sea salt")
  = Some "salt".
Proof.
  intros ih.
  rewrite (proj1 (@add_ingredient_keeps_lookups ih "sea salt" (Some 1.1%Q)
                    "sea salt" (Ingredient_init "salt" None (Some 1.2%Q) None)
                    eq_refl)).
  reflexivity.
Defined.



(** What holds of every handler obtained from a fresh one by calls of
    [add_ingredient]: the registry and each of its ingredients hold the
    units handler the registry was created with, every ingredient
    answers to its own name alone, and the six built-in ingredients
    stay first, in their order, so that they keep priority in
    lookups. *)
Theorem grown_handler_invariant (units_handler_arg : option UnitsHandler)
    (ih : IngredientsHandler) :
  grown (IngredientsHandler_init units_handler_arg) ih ->
  IngredientsHandler_uh ih = units_handler_arg /\
  (forall i, In i (ingredients ih) ->
             Ingredient_uh i = units_handler_arg /\
             Ingredient_allnames i = [Ingredient_name i]) /\
  map Ingredient_name (firstn 6 (ingredients ih)) =
    ["flour"; "salt"; "sugar"; "water"; "butter"; "vanilla"] /\
  (6 <= List.length (ingredients ih))%nat.
Proof.
  induction 1 as [|ih name d Hg [IHuh [IHin [IHfirst IHlen]]]].
  - split; [reflexivity|]. split; [|split; [reflexivity|cbn; auto]].
    intros i Hi. cbn in Hi.
    repeat (destruct Hi as [<-|Hi]; [split; reflexivity|]). destruct Hi.
  - unfold add_ingredient. cbn [IngredientsHandler_uh ingredients].
    split; [exact IHuh|]. split; [|split].
    + intros i Hi. apply in_app_iff in Hi as [Hi|[<-|[]]].
      * now apply IHin.
      * split; [exact IHuh|reflexivity].
    + rewrite firstn_app.
      replace (6 - List.length (ingredients ih))%nat with 0%nat
        by (symmetry; apply Nat.sub_0_le; exact IHlen).
      cbn [firstn]. rewrite app_nil_r. exact IHfirst.
    + rewrite length_app. apply Nat.le_trans with (1 := IHlen).
      apply Nat.le_add_r.
Qed.

Lemma grown_handler_invariant_witness :
  let ih := add_ingredient
              (add_ingredient (IngredientsHandler_init None) "honey"
                 (Some 1.42%Q))
              "flour" (Some 0.6%Q) in
  map Ingredient_name (firstn 6 (ingredients ih)) =
    ["flour"; "salt"; "sugar"; "water"; "butter"; "vanilla"].
Proof.
  intros ih.
  apply (@grown_handler_invariant None ih).
  unfold ih. apply grown_add. apply grown_add. apply grown_same.
Defined.

(** ** The outcomes of Ingredient.convert *)

(** Splits a goal on the density and on the divisors tested. *)
Ltac split_cases :=
  repeat match goal with
         | |- context [density ?i] => destruct (density i) as [?d|]
         | |- context [Qeq_bool ?a ?b] =>
             let E := fresh "E" in destruct (Qeq_bool a b) eqn:E
         | _ => progress cbn [bind]
         end;
  repeat match goal with
         | E : Qeq_bool _ _ = true |- _ => apply Qeq_bool_eq in E
         | E : Qeq_bool ?a ?b = false |- _ =>
             assert (~ (a == b)%Q)
               by (let H := fresh in
                   intros H; apply Qeq_bool_iff in H; congruence);
             clear E
         end.

(** Takes apart hypotheses about which units were found. *)
Ltac same_units :=
  repeat match goal with
         | H : _ /\ _ |- _ => destruct H
         | H : exists _, _ |- _ => destruct H
         | H : Some _ = Some _ |- _ => injection H as H; subst
         | H : Some _ = None |- _ => discriminate H
         | H : None = Some _ |- _ => discriminate H
         | H : None <> None |- _ => contradiction H; reflexivity
         | H : _ \/ _ |- _ => destruct H
         end.

(** Looks for the case of a disjunction that the context proves. *)
Ltac search :=
  first [ reflexivity | assumption | discriminate
        | eexists; search
        | split; search
        | left; search | right; search ].

(** [Ingredient.convert] returns exactly when each of the two unit
    strings resolves in one category only, the density is there when the
    categories differ, and no divisor is zero: the ratio of the target
    unit and, from mass to volume, the density.  The name it returns is
    the target string as given, or "liter" when none was given. *)
Theorem Ingredient_convert_returns (i : Ingredient) (uh : UnitsHandler)
    (m : Q) (from_unit : string) (to_unit : option string) :
  Ingredient_uh i = Some uh ->
  let t := or_liter to_unit in
  ((exists x name,
       Ingredient_convert i m from_unit to_unit = Return (x, name))
   <->
   exists u v,
     ((only_volume uh from_unit u /\ only_volume uh t v) \/
      (only_mass uh from_unit u /\ only_mass uh t v) \/
      (only_volume uh from_unit u /\ only_mass uh t v /\
       density i <> None) \/
      (only_mass uh from_unit u /\ only_volume uh t v /\
       exists d, density i = Some d /\ ~ (d == 0)%Q)) /\
     ~ (SI_ratio v == 0)%Q)
  /\
  (forall x name,
      Ingredient_convert i m from_unit to_unit = Return (x, name) ->
      name = t).
Proof.
  intros Huh t. subst t.
  unfold Ingredient_convert, only_volume, only_mass, convert_from_SI, truediv.
  rewrite Huh. cbn [call bind].
  destruct (match_unit (volume uh) from_unit) as [v1|],
           (match_unit (mass uh) from_unit) as [m1|],
           (match_unit (volume uh) (or_liter to_unit)) as [v2|],
           (match_unit (mass uh) (or_liter to_unit)) as [m2|];
    cbn [is_None is_not_None negb andb call bind].
  all: split_cases.
  all: (split; [split|]).
  all: try (intros; congruence).
  all: try (intros [? [? ?]]; discriminate).
  all: try (intros _; do 2 eexists; reflexivity).
  all: try (intros _; do 2 eexists; split; [search|assumption]).
  all: intros [? [? [[?|[?|[?|?]]] ?]]]; same_units; contradiction.
Qed.

Lemma Ingredient_convert_returns_witness :
  let uh := units_handler pint_ratio in
  let vanilla := Ingredient_init "vanilla" None None (Some uh) in
  exists x name,
    Ingredient_convert vanilla 3 "tsp" (Some "tbsp") = Return (x, name).
Proof.
  intros uh vanilla.
  apply (proj1 (@Ingredient_convert_returns vanilla uh 3 "tsp" (Some "tbsp")
                  eq_refl)).
  destruct (match_unit (volume uh) "tsp") as [u|] eqn:Hu;
    [|vm_compute in Hu; discriminate Hu].
  destruct (match_unit (volume uh) "tbsp") as [v|] eqn:Hv;
    [|vm_compute in Hv; discriminate Hv].
  exists u, v. split.
  - left. split; split; first [assumption|reflexivity].
  - vm_compute in Hv. injection Hv as <-. vm_compute. discriminate.
Defined.

(** Which error [Ingredient.convert] raises.  Without a units handler it
    raises the attribute error, and with one never.  The source string is
    reported as not found when it matches nothing, the target string when
    the source matches something and the target nothing; the density is
    reported as missing when it is absent and the two strings resolve in
    different categories; a division error comes from a target unit of
    ratio zero or, from mass to volume, from a density of zero. *)
Theorem Ingredient_convert_errors (i : Ingredient) (m : Q)
    (from_unit : string) (to_unit : option string) :
  let t := or_liter to_unit in
  let r := Ingredient_convert i m from_unit to_unit in
  match Ingredient_uh i with
  | None => r = Raise AttributeError
  | Some uh =>
      r <> Raise AttributeError /\
      (r = Raise (ValueError "couldn't find the from_unit") <->
       unmatched uh from_unit = true) /\
      (r = Raise (ValueError "couldn't find the to_unit") <->
       unmatched uh from_unit = false /\ unmatched uh t = true) /\
      (r = Raise MissingDensityError <->
       density i = None /\
       exists u v,
         (only_volume uh from_unit u /\ only_mass uh t v) \/
         (only_mass uh from_unit u /\ only_volume uh t v)) /\
      (r = Raise ZeroDivisionError <->
       exists u v,
         (((only_volume uh from_unit u /\ only_volume uh t v) \/
           (only_mass uh from_unit u /\ only_mass uh t v)) /\
          (SI_ratio v == 0)%Q)
         \/
         (only_volume uh from_unit u /\ only_mass uh t v /\
          density i <> None /\ (SI_ratio v == 0)%Q)
         \/
         (only_mass uh from_unit u /\ only_volume uh t v /\
          exists d, density i = Some d /\
                    ((d == 0)%Q \/ (SI_ratio v == 0)%Q)))
  end.
Proof.
  intros t r. subst t r.
  unfold Ingredient_convert, MissingDensityError, unmatched, only_volume,
    only_mass, convert_from_SI, truediv.
  destruct (Ingredient_uh i) as [uh|]; cbn [call bind]; [|reflexivity].
  rewrite <- !is_None_match_unit.
  destruct (match_unit (volume uh) from_unit) as [v1|],
           (match_unit (mass uh) from_unit) as [m1|],
           (match_unit (volume uh) (or_liter to_unit)) as [v2|],
           (match_unit (mass uh) (or_liter to_unit)) as [m2|];
    cbn [is_None is_not_None negb andb call bind].
  all: split_cases.
  all: (split; [congruence|]).
  all: (split; [|split; [|split]]).
  all: split.
  all: try (intros ?; congruence).
  all: try (intros _; search).
  all: intros ?; same_units; first [reflexivity|contradiction|congruence].
Qed.

(** ** The sets UnitsHandler builds *)

Section BuiltinSets.

Variable ureg_ratio : string -> string -> Q.

Let uh : UnitsHandler := units_handler ureg_ratio.

(** Whatever the registry answers, [UnitsHandler()] raises nothing, and
    in each of its three sets every unit carries the SI unit of the set
    and no two units share a name. *)
Theorem builtin_sets_well_formed :
  let well_formed (set : UnitSet) : Prop :=
    forallb (fun u => String.eqb (SI_unit u) (UnitSet_SI_unit set))
      (units set) = true /\
    NoDup (map Unit_name (units set)) in
  UnitsHandler_init ureg_ratio = Return uh /\
  well_formed (volume uh) /\ well_formed (mass uh) /\
  well_formed (temperature uh).
Proof.
  assert (distinct : forall l : list string,
             (fix go (l : list string) : bool :=
                match l with
                | [] => true
                | x :: l' => negb (existsb (String.eqb x) l') && go l'
                end) l = true -> NoDup l).
  { induction l as [|x l IH]; intros H; constructor.
    - apply andb_true_iff in H as [H _]. apply negb_true_iff in H.
      intros Hin. apply not_true_iff_false in H. apply H.
      apply existsb_exists. exists x. split; [exact Hin|apply String.eqb_refl].
    - apply andb_true_iff in H as [_ H]. now apply IH. }
  intros well_formed. split; [reflexivity|].
  repeat split; try (vm_compute; reflexivity);
    apply distinct; vm_compute; reflexivity.
Qed.

(** No string resolves to the kelvin unit: it is listed after the
    celsius unit under the names of the celsius unit. *)
Theorem kelvin_is_unreachable (s : string) :
  match match_unit (temperature uh) s with
  | Some u => String.eqb (Unit_name u) "kelvin"
  | None => false
  end = false.
Proof.
  destruct (match_unit (temperature uh) s) as [u|] eqn:E; [|reflexivity].
  apply String.eqb_neq. exact (kelvin_never_found ureg_ratio s E).
Qed.

End BuiltinSets.

(** ** A unit and its own names *)



(** ** Ingredient.convert and UnitSet.convert *)

(** When both unit strings resolve in the volume set only, or both in
    the mass set only, [Ingredient.convert] gives what the [convert] of
    that set gives, whatever the ingredient and its density. *)
Theorem Ingredient_convert_within_set (i : Ingredient) (uh : UnitsHandler)
    (m : Q) (from_unit t : string) (u v : Unit) :
  Ingredient_uh i = Some uh ->
  (only_volume uh from_unit u /\ only_volume uh t v ->
   Ingredient_convert i m from_unit (Some t) =
   UnitSet_convert (volume uh) m from_unit (Some t))
  /\
  (only_mass uh from_unit u /\ only_mass uh t v ->
   Ingredient_convert i m from_unit (Some t) =
   UnitSet_convert (mass uh) m from_unit (Some t)).
Proof.
  intros Huh. split; intros [Hu Hv].
  - rewrite (@convert_within_category i uh m from_unit (Some t) Huh u v
               (or_introl (conj Hu Hv))).
    unfold UnitSet_convert. destruct Hu as [Hu _], Hv as [Hv _].
    rewrite Hu, Hv. reflexivity.
  - rewrite (@convert_within_category i uh m from_unit (Some t) Huh u v
               (or_intror (conj Hu Hv))).
    unfold UnitSet_convert. destruct Hu as [Hu _], Hv as [Hv _].
    rewrite Hu, Hv. reflexivity.
Qed.

Lemma Ingredient_convert_within_set_witness :
  let uh := units_handler pint_ratio in
  let sugar := Ingredient_init "sugar" None (Some 0.8%Q) (Some uh) in
  Ingredient_convert sugar 2 "lb" (Some "kg") =
  UnitSet_convert (mass uh) 2 "lb" (Some "kg").
Proof.
  intros uh sugar.
  destruct (match_unit (mass uh) "lb") as [u|] eqn:Hu;
    [|vm_compute in Hu; discriminate Hu].
  destruct (match_unit (mass uh) "kg") as [v|] eqn:Hv;
    [|vm_compute in Hv; discriminate Hv].
  apply (proj2 (@Ingredient_convert_within_set sugar uh 2 "lb" "kg" u v
                  eq_refl)).
  split; split; first [assumption|reflexivity].
Defined.
